(** * fitness-tracker: the local store, the daily-metrics handlers and the
      program calendar of [app.js]

    The development follows [app.js] top to bottom:
    - JavaScript values and objects ([number], [value], [object]);
    - the IndexedDB database with its two object stores, both with
      [keyPath: 'date'], and the promise-returning persistence functions
      [openDatabase], [saveDailyData], [getDailyData], [saveWeight],
      [getAllWeights];
    - the three click handlers of the dashboard and trackers tabs;
    - [getWeekAndDay], [renderTodayWorkout] and [renderWeeklySchedule];
    - what [renderDashboardData] shows for a record, and clicks handled
      one after the other.

    Asynchronous code is written in a small state-and-rejection monad
    over a [world]: the module-level handle [db], the contents of the two
    object stores, the answers the storage backend will give to the
    next requests and commits, and the trace of requests and alerts
    issued so far. *)

From stdpp Require Import gmap strings list fin_maps numbers countable pretty.
From Stdlib Require Import ZArith QArith Qcanon Lia.

Open Scope Z_scope.

(** ** JavaScript values *)

(** A number as the handlers see it: [NaN] (what [parseInt] and
    [parseFloat] return for a blank or non-numeric input) or a finite
    number. The handlers only test numbers ([x || 0], [x > 0]) and store
    them, they never compute with them, so the finite numbers are taken
    as exact rationals. *)
Inductive number :=
  | NaN
  | Num (q : Qc).

Inductive value :=
  | VNum (n : number)
  | VStr (s : string).

#[global] Instance number_eq_dec : EqDecision number.
Proof. solve_decision. Defined.

#[global] Instance value_eq_dec : EqDecision value.
Proof. solve_decision. Defined.

#[global] Instance number_countable : Countable number.
Proof.
  refine (inj_countable'
            (fun n => match n with NaN => None | Num q => Some q end)
            (fun o => match o with None => NaN | Some q => Num q end) _).
  intros []; reflexivity.
Defined.

#[global] Instance value_countable : Countable value.
Proof.
  refine (inj_countable'
            (fun v => match v with VNum n => inl n | VStr s => inr s end)
            (fun s => match s with inl n => VNum n | inr s => VStr s end) _).
  intros []; reflexivity.
Defined.

(** An integer literal. *)
Definition num (z : Z) : number := Num (Q2Qc (inject_Z z)).

(** [ToBoolean] on a number: [NaN] and [0] are falsy. *)
Definition truthy (n : number) : bool :=
  match n with
  | NaN => false
  | Num q => negb (bool_decide (q = Q2Qc 0))
  end.

(** [x || 0] *)
Definition or0 (x : number) : number := if truthy x then x else num 0.

(** [x > 0]; every comparison with [NaN] is false. *)
Definition gt0 (x : number) : bool :=
  match x with
  | NaN => false
  | Num q => bool_decide (Q2Qc 0 < q)%Qc
  end.

(** A plain object: own properties by name. A property that is not
    there reads as [undefined], here [None]. *)
Abbreviation object := (gmap string value).

(** ** The database *)

Inductive storeName := dailyDataStore | weightsStore.

Inductive request :=
  | ReqOpen
  | ReqGet (s : storeName) (key : value)
  | ReqPut (s : storeName) (record : object)
  | ReqGetAll (s : storeName).

Inductive event :=
  | Request (r : request)
  | Alert (msg : string).

Record world := World {
  db : bool;                        (* [let db;] is set *)
  dailyData : gmap value object;    (* object store 'dailyData' *)
  weights : gmap value object;      (* object store 'weights' *)
  faults : list bool;               (* [true]: the next answer is a failure *)
  trace : list event                (* newest first *)
}.

Definition set_db (b : bool) (w : world) : world :=
  World b (dailyData w) (weights w) (faults w) (trace w).
Definition set_faults (fs : list bool) (w : world) : world :=
  World (db w) (dailyData w) (weights w) fs (trace w).
Definition add_event (e : event) (w : world) : world :=
  World (db w) (dailyData w) (weights w) (faults w) (e :: trace w).

Definition contents (s : storeName) (w : world) : gmap value object :=
  match s with dailyDataStore => dailyData w | weightsStore => weights w end.

Definition set_contents (s : storeName) (m : gmap value object) (w : world) : world :=
  match s with
  | dailyDataStore => World (db w) m (weights w) (faults w) (trace w)
  | weightsStore => World (db w) (dailyData w) m (faults w) (trace w)
  end.

(** ** Promises *)

Inductive settled (A : Type) :=
  | Fulfilled (a : A)
  | Rejected (reason : string).
Arguments Fulfilled {A} a.
Arguments Rejected {A} reason.

Definition async (A : Type) : Type := world -> settled A * world.

Definition resolve {A} (a : A) : async A := fun w => (Fulfilled a, w).
Definition reject {A} (reason : string) : async A := fun w => (Rejected reason, w).

(** [const x = await m; k x] *)
Definition await {A B} (m : async A) (k : A -> async B) : async B :=
  fun w =>
    match m w with
    | (Fulfilled a, w') => k a w'
    | (Rejected r, w') => (Rejected r, w')
    end.

(** [try { m } catch (error) { h error }] *)
Definition try_catch {A} (m : async A) (h : string -> async A) : async A :=
  fun w =>
    match m w with
    | (Fulfilled a, w') => (Fulfilled a, w')
    | (Rejected r, w') => h r w'
    end.

(** A call of an async function whose promise is dropped: its requests
    are issued, its result and its rejection are not observed. *)
Definition detach {A} (m : async A) : async unit :=
  fun w => (Fulfilled tt, snd (m w)).

Declare Scope async_scope.
Delimit Scope async_scope with async.
Notation "x <- m ;; k" := (await m (fun x => k))
  (at level 100, m at next level, right associativity) : async_scope.
Notation "m ;; k" := (await m (fun _ => k))
  (at level 100, right associativity) : async_scope.
Open Scope async_scope.

Definition emit (e : event) : async unit := fun w => (Fulfilled tt, add_event e w).

Definition alert (msg : string) : async unit := emit (Alert msg).

(** The backend's answer to the request just issued. *)
Definition backend_errors : async bool :=
  fun w =>
    match faults w with
    | [] => (Fulfilled false, w)
    | b :: fs => (Fulfilled b, set_faults fs w)
    end.

(** The key of a record in a store with [keyPath: 'date']. A record
    without the property, or with [NaN] there, has no valid key. *)
Definition keyOf (record : object) : option value :=
  match record !! "date" with
  | None => None
  | Some (VNum NaN) => None
  | Some k => Some k
  end.

(** [store.put(record)] wrapped in its promise: [put] throws a
    [DataError] inside the executor when the record has no valid key,
    which rejects the promise before any request exists; [onerror]
    rejects with [err] and leaves the store as it was. [onsuccess]
    resolves the promise; nothing listens to the transaction, which
    still has to commit: when it aborts instead, the promise stays
    fulfilled and the store is as it was. The backend gives one answer
    for the request and, when that succeeded, one for the commit. *)
Definition idb_put (s : storeName) (record : object) (err : string) : async unit :=
  match keyOf record with
  | None => reject "DataError"
  | Some k =>
      emit (Request (ReqPut s record)) ;;
      failed <- backend_errors ;;
      if (failed : bool) then reject err
      else
        aborted <- backend_errors ;;
        if (aborted : bool) then resolve tt
        else fun w => (Fulfilled tt, set_contents s (<[k := record]> (contents s w)) w)
  end.

(** [store.get(key)]: [request.result] is the record or [undefined]. *)
Definition idb_get (s : storeName) (key : value) (err : string) : async (option object) :=
  emit (Request (ReqGet s key)) ;;
  failed <- backend_errors ;;
  if (failed : bool) then reject err
  else fun w => (Fulfilled (contents s w !! key), w).

(** [store.getAll()]; the order of the result is not modelled. *)
Definition idb_getAll (s : storeName) (err : string) : async (list object) :=
  emit (Request (ReqGetAll s)) ;;
  failed <- backend_errors ;;
  if (failed : bool) then reject err
  else fun w => (Fulfilled (snd <$> map_to_list (contents s w)), w).

Definition openDatabase : async unit :=
  emit (Request ReqOpen) ;;
  failed <- backend_errors ;;
  if (failed : bool) then reject "Database error"
  else fun w => (Fulfilled tt, set_db true w).

(** [if (!db) await openDatabase();] *)
Definition ensure_db : async unit :=
  fun w => if db w then (Fulfilled tt, w) else openDatabase w.

(** ** Data persistence functions *)

(** [store.put({ date, ...data })]: the properties of [data] are spread
    after [date], so a [date] property of [data] wins. *)
Definition saveDailyData (date : string) (data : object) : async unit :=
  ensure_db ;;
  idb_put dailyDataStore (data ∪ {["date" := VStr date]}) "Error saving daily data".

Definition getDailyData (date : string) : async (option object) :=
  ensure_db ;;
  idb_get dailyDataStore (VStr date) "Error getting daily data".

Definition saveWeight (date : string) (weight : number) : async unit :=
  ensure_db ;;
  idb_put weightsStore (<["weight" := VNum weight]> {["date" := VStr date]}) "Error saving weight".

Definition getAllWeights : async (list object) :=
  ensure_db ;;
  idb_getAll weightsStore "Error getting all weights".

(** ** Rendering functions that touch the store

    What they write to the page is left out; the reads they issue are
    kept. *)

Definition renderDashboardData (date : string) : async unit :=
  data <- getDailyData date ;;
  resolve tt.

Definition renderWeightHistory : async unit :=
  weights <- getAllWeights ;;
  resolve tt.

(** ** Click handlers

    [today] is [new Date().toISOString().split('T')[0]]; each [...Input]
    argument is what [parseInt] or [parseFloat] returned for the value of
    the input element of that id. *)

(** [{ steps, water, calories, protein, carbs, fat }] *)
Definition dailyFields (steps water calories protein carbs fat : number) : object :=
  <["fat" := VNum fat]> (<["carbs" := VNum carbs]> (<["protein" := VNum protein]>
  (<["calories" := VNum calories]> (<["water" := VNum water]> {["steps" := VNum steps]})))).

(** [{ ...existingData, calories, protein, carbs, fat }] *)
Definition withMacros (existingData : object) (calories protein carbs fat : number) : object :=
  <["fat" := VNum fat]> (<["carbs" := VNum carbs]> (<["protein" := VNum protein]>
  (<["calories" := VNum calories]> existingData))).

Definition saveDailyDataBtn_click (today : string)
    (stepsInput waterInput calorieInput proteinInput carbInput fatInput : number) : async unit :=
  let steps := or0 stepsInput in
  let water := or0 waterInput in
  let calories := or0 calorieInput in
  let protein := or0 proteinInput in
  let carbs := or0 carbInput in
  let fat := or0 fatInput in
  try_catch
    (saveDailyData today (dailyFields steps water calories protein carbs fat) ;;
     alert "Daily data saved!" ;;
     detach (renderDashboardData today))
    (fun error => alert ("Error saving daily data: " +:+ error)).

Definition saveWeightBtn_click (today : string) (weightInput : number) : async unit :=
  let weight := weightInput in
  if gt0 weight then
    try_catch
      (saveWeight today weight ;;
       alert "Weight saved!" ;;
       detach renderWeightHistory)
      (fun error => alert ("Error saving weight: " +:+ error))
  else alert "Please enter a valid weight.".

Definition saveMacrosBtn_click (today : string)
    (calorieInput proteinInput carbInput fatInput : number) : async unit :=
  let calories := or0 calorieInput in
  let protein := or0 proteinInput in
  let carbs := or0 carbInput in
  let fat := or0 fatInput in
  if truthy calories || truthy protein || truthy carbs || truthy fat then
    try_catch
      (r <- getDailyData today ;;
       let existingData := default ∅ r in
       saveDailyData today (withMacros existingData calories protein carbs fat) ;;
       alert "Macros saved!" ;;
       detach (renderDashboardData today))
      (fun error => alert ("Error saving macros: " +:+ error))
  else alert "Please enter at least one macro value.".

(** ** The program calendar *)

Record exercise := Exercise {
  name : string;
  sets : option Z;
  reps : option string;
  notes : option string
}.

Record workout := Workout {
  type : string;
  description : string;
  exercises : list exercise
}.

Record coordinate := Coordinate {
  week : Z;
  day : Z;
  message : option string
}.

(** What [renderTodayWorkout] puts in [todayWorkoutSummary], by branch. *)
Inductive summary :=
  | CompletedOrNotStarted (week day : Z)  (* "Workout program completed or not started yet. Week w, Day d." *)
  | TodaysWorkout (week day : Z) (workoutForToday : workout)
  | NoWorkoutPlanned (week day : Z)       (* "No specific workout planned for Week w, Day d. ..." *)
  | NoWorkoutData (week : Z).             (* "No workout data found for Week w." *)

Definition msPerDay : Z := 1000 * 60 * 60 * 24.

(** [Math.ceil(a / b)] for integers [a] and [b > 0], taken exactly: the
    quotient of two time values a few years apart is far from where a
    double could round it to the next integer. *)
Definition Math_ceil_div (a b : Z) : Z := - ((- a) / b).

Definition PROGRAM_START_DATE : string := "2025-07-07".

Section Calendar.

(** The host's time zone, as ECMA-262 has it: [LocalTZA t isUTC] is the
    offset of local time from UTC in milliseconds, at the UTC time [t]
    or at the local time [t]. *)
Variable LocalTZA : Z -> bool -> Z.

(** The time value of [new Date(s)], in milliseconds since the epoch,
    for the date strings the program is run with. *)
Variable Date_parse : string -> Z.

(** The static table [WORKOUT_PLAN], by ["Week n"] and ["Day n"]. *)
Variable WORKOUT_PLAN : gmap string (gmap string workout).

(** [d.setHours(0, 0, 0, 0)] on the time value [t]: the start of the
    local day of [t], back as a time value. *)
Definition setHours0 (t : Z) : Z :=
  let local := t + LocalTZA t true in
  let midnight := (local / msPerDay) * msPerDay in
  midnight - LocalTZA midnight false.

(** [now] is the time value of [new Date()]. *)
Definition getWeekAndDay (now : Z) (startDateStr : string) : coordinate :=
  let today := setHours0 now in
  let startDate := setHours0 (Date_parse startDateStr) in
  if today <? startDate then
    Coordinate 0 0 (Some "Program hasn't started yet!")
  else
    let diffTime := Z.abs (today - startDate) in
    let diffDays := Math_ceil_div diffTime msPerDay in
    let week := diffDays / 7 + 1 in
    let day := Z.rem diffDays 7 + 1 in
    Coordinate week day None.

(** The summary shown, and the keys read from the plan on the way:
    first of [WORKOUT_PLAN], then of the week found there. *)
Definition renderTodayWorkout (now : Z) : summary * list string :=
  let c := getWeekAndDay now PROGRAM_START_DATE in
  let week := week c in
  let day := day c in
  if (week >? 26) || (week =? 0) then (CompletedOrNotStarted week day, [])
  else
    let weekKey := "Week " +:+ pretty week in
    match WORKOUT_PLAN !! weekKey with
    | Some currentWeekPlan =>
        let dayKey := "Day " +:+ pretty day in
        match currentWeekPlan !! dayKey with
        | Some workoutForToday => (TodaysWorkout week day workoutForToday, [weekKey; dayKey])
        | None => (NoWorkoutPlanned week day, [weekKey; dayKey])
        end
    | None => (NoWorkoutData week, [weekKey])
    end.

End Calendar.

(** ** Sample hosts, plans and worlds *)

Definition msPerHour : Z := 1000 * 60 * 60.

(** [new Date('2025-07-07')]: a date-only string is read as UTC, so this
    is the time value of 2025-07-07T00:00:00Z. *)
Definition start_2025_07_07 : Z := 1751846400000.
Definition parse_2025_07_07 : string -> Z := fun _ => start_2025_07_07.

(** A host on UTC, one five hours behind it, and one two hours ahead
    until 2025-10-26T01:00:00Z and one hour ahead from then on. *)
Definition utc : Z -> bool -> Z := fun _ _ => 0.
Definition utc_minus_5 : Z -> bool -> Z := fun _ _ => - 5 * msPerHour.
Definition summer_then_winter : Z -> bool -> Z :=
  fun t _ => if t <? 1761440400000 then 2 * msPerHour else 1 * msPerHour.

(** A plan with one entry, in week 27. *)
Definition planWithWeek27 : gmap string (gmap string workout) :=
  {["Week 27" := {["Day 1" := Workout "Rest" "Complete rest." []]}]}.

(** ** Vocabulary of the statements *)

(** Both object stores at once. *)
Definition stored (w : world) : gmap value object * gmap value object :=
  (dailyData w, weights w).

(** Every record sits under the key its [date] property gives, as a
    store with [keyPath: 'date'] has it. *)
Definition keyed (m : gmap value object) : Prop :=
  forall k r, m !! k = Some r -> r !! "date" = Some k.

Definition is_put (e : event) : bool :=
  match e with Request (ReqPut _ _) => true | _ => false end.

(** From [w] to [w'] nothing changed in 'weights', and nothing in
    'dailyData' except possibly under [key]. *)
Definition untouched_except (key : value) (w w' : world) : Prop :=
  weights w' = weights w /\
  forall k, k <> key -> dailyData w' !! k = dailyData w !! k.

(** The property [name] of the record stored in 'dailyData' under [date]. *)
Definition storedField (w : world) (date name : string) : option value :=
  dailyData w !! VStr date ≫= fun record => record !! name.

(** An input that is blank or not a number, or is zero. *)
Definition blank_or_zero (x : number) : Prop := x = NaN \/ x = num 0.

(** A database that is open, with nothing stored and a backend that
    answers every request; the same with a backend that fails the next
    request. *)
Definition fresh : world := World true ∅ ∅ [] [].
Definition failing : world := World true ∅ ∅ [true] [].

(** 72.5 *)
Definition num_72_5 : number := Num (Q2Qc (145 # 2)).

(** ** What the dashboard shows *)

(** [ToBoolean] on a property read from an object, and [x || d]. *)
Definition truthyValue (x : option value) : bool :=
  match x with
  | None => false
  | Some (VNum n) => truthy n
  | Some (VStr s) => negb (String.eqb s "")
  end.

Definition orElse (x : option value) (d : value) : value :=
  if truthyValue x then default d x else d.

(** What [renderDashboardData] writes for the record it read: the six
    values shown (before the [" L"] and ["g"] suffixes of the water and
    the macros) and the six values put back into the inputs. *)
Record dashboardView := DashboardView {
  displaySteps : value;
  displayWater : value;
  displayCalories : value;
  displayProtein : value;
  displayCarbs : value;
  displayFat : value;
  stepsInputValue : value;
  waterInputValue : value;
  calorieInputValue : value;
  proteinInputValue : value;
  carbInputValue : value;
  fatInputValue : value
}.

Definition dashboardOf (data : option object) : dashboardView :=
  match data with
  | Some data =>
      DashboardView
        (orElse (data !! "steps") (VNum (num 0)))
        (orElse (data !! "water") (VNum (num 0)))
        (orElse (data !! "calories") (VNum (num 0)))
        (orElse (data !! "protein") (VNum (num 0)))
        (orElse (data !! "carbs") (VNum (num 0)))
        (orElse (data !! "fat") (VNum (num 0)))
        (orElse (data !! "steps") (VStr ""))
        (orElse (data !! "water") (VStr ""))
        (orElse (data !! "calories") (VStr ""))
        (orElse (data !! "protein") (VStr ""))
        (orElse (data !! "carbs") (VStr ""))
        (orElse (data !! "fat") (VStr ""))
  | None =>
      DashboardView
        (VNum (num 0)) (VNum (num 0)) (VNum (num 0))
        (VNum (num 0)) (VNum (num 0)) (VNum (num 0))
        (VStr "") (VStr "") (VStr "") (VStr "") (VStr "") (VStr "")
  end.

(** ** The weekly schedule *)

Definition daysOfWeek : list string :=
  ["Monday"; "Tuesday"; "Wednesday"; "Thursday"; "Friday"; "Saturday"; "Sunday"].

(** One [dayDiv]: the name of the day, the number of days added to the
    start date by [setDate] (its formatting is left out), the text after
    the date, and whether the row has the class [current-day]. The click
    listener of the row is not part of it. *)
Record scheduleRow := ScheduleRow {
  dayName : string;
  daysAfterStart : Z;
  rowText : string;
  currentDay : bool
}.

Inductive schedule :=
  | ScheduleCompletedOrNotStarted   (* "Workout program completed or not started yet." *)
  | ScheduleNoPlan                  (* "No plan found for the current week." *)
  | ScheduleWeek (rows : list scheduleRow).

Section Schedule.

Variable LocalTZA : Z -> bool -> Z.
Variable Date_parse : string -> Z.
Variable WORKOUT_PLAN : gmap string (gmap string workout).

Definition renderWeeklySchedule (now : Z) : schedule :=
  let c := getWeekAndDay LocalTZA Date_parse now PROGRAM_START_DATE in
  let currentWeekNum := week c in
  let currentDayNum := day c in
  if (currentWeekNum >? 26) || (currentWeekNum =? 0) then ScheduleCompletedOrNotStarted
  else
    match WORKOUT_PLAN !! ("Week " +:+ pretty currentWeekNum) with
    | None => ScheduleNoPlan
    | Some currentWeekPlan =>
        ScheduleWeek
          ((fun i : Z =>
              let dayKey := "Day " +:+ pretty i in
              let workout := currentWeekPlan !! dayKey in
              ScheduleRow
                (default "" (daysOfWeek !! Z.to_nat (i - 1)))
                ((currentWeekNum - 1) * 7 + (i - 1))
                (match workout with
                 | Some workout => type workout
                 | None => "Rest/Active Recovery"
                 end)
                (i =? currentDayNum))
             <$> [1; 2; 3; 4; 5; 6; 7])
    end.

End Schedule.

(** ** Clicks, one after the other *)

Inductive click :=
  | ClickSaveDailyData (today : string)
      (stepsInput waterInput calorieInput proteinInput carbInput fatInput : number)
  | ClickSaveWeight (today : string) (weightInput : number)
  | ClickSaveMacros (today : string)
      (calorieInput proteinInput carbInput fatInput : number).

Definition handle (c : click) : async unit :=
  match c with
  | ClickSaveDailyData today s wa ca p cb f => saveDailyDataBtn_click today s wa ca p cb f
  | ClickSaveWeight today x => saveWeightBtn_click today x
  | ClickSaveMacros today ca p cb f => saveMacrosBtn_click today ca p cb f
  end.

(** The world after a list of clicks, each handler run to its end before
    the next click. *)
Fixpoint session (cs : list click) (w : world) : world :=
  match cs with
  | [] => w
  | c :: cs => session cs (snd (handle c w))
  end.

(** The alerts of a trace, newest first, and its numbers of open and put
    requests. *)
Definition alertsOf (t : list event) : list string :=
  omap (fun e => match e with Alert msg => Some msg | Request _ => None end) t.

Definition is_open (e : event) : bool :=
  match e with Request ReqOpen => true | _ => false end.

Definition opensOf (t : list event) : nat := length (List.filter is_open t).

Definition putsOf (t : list event) : nat := length (List.filter is_put t).

(** A stored weight sample: the date it sits under and a weight above 0,
    nothing else. *)
Definition isSample (k : value) (record : object) : Prop :=
  exists (date : string) (q : Qc),
    k = VStr date /\ (0 < q)%Qc /\
    record = <["weight" := VNum (Num q)]> {["date" := VStr date]}.

(** No property of the record is [NaN]. *)
Definition noNaN (record : object) : Prop :=
  forall name, record !! name <> Some (VNum NaN).

(** From [w] to [w1] no alert was shown, at most [n] put requests were
    issued and, if the database was open, it stayed open and was not
    opened again. *)
Definition quiet (n : nat) (w w1 : world) : Prop :=
  alertsOf (trace w1) = alertsOf (trace w) /\
  (putsOf (trace w1) <= putsOf (trace w) + n)%nat /\
  (db w = true -> db w1 = true /\ opensOf (trace w1) = opensOf (trace w)).

(** From [w] to [w1] exactly the alert [msg] was shown, at most one put
    request was issued and, if the database was open, it stayed open and
    was not opened again. *)
Definition clicked (msg : string) (w w1 : world) : Prop :=
  alertsOf (trace w1) = msg :: alertsOf (trace w) /\
  (putsOf (trace w1) <= putsOf (trace w) + 1)%nat /\
  (db w = true -> db w1 = true /\ opensOf (trace w1) = opensOf (trace w)).

(** The stores as the handlers leave them: every daily record sits
    under its own date, a string, and holds no [NaN]; every weight record
    is a sample. *)
Definition tidy (w : world) : Prop :=
  (forall k r, dailyData w !! k = Some r ->
     r !! "date" = Some k /\ (exists date, k = VStr date) /\ noNaN r) /\
  (forall k r, weights w !! k = Some r -> isSample k r).

(** A database not opened yet whose open request will fail, and a plan
    with one entry in week 1. *)
Definition unopened : world := World false ∅ ∅ [true] [].

Definition planWithWeek1 : gmap string (gmap string workout) :=
  {["Week 1" := {["Day 1" := Workout "Full Body" "Foundation." []]}]}.

(** How a save has settled, from [w]: rejected with both stores as
    they were, or fulfilled with the stores [written] or, the transaction
    having aborted after the put succeeded, as they were. *)
Definition settles (result : settled unit * world) (w : world)
    (written : gmap value object * gmap value object) : Prop :=
  match result with
  | (Fulfilled _, w1) => stored w1 = written \/ stored w1 = stored w
  | (Rejected _, w1) => stored w1 = stored w
  end.

(** An open database whose backend will take the next put and then
    abort its transaction. *)
Definition aborting : world := World true ∅ ∅ [false; true] [].

(** * Properties *)

(** ** The program calendar *)

Section CalendarFacts.

Variable LocalTZA : Z -> bool -> Z.
Variable Date_parse : string -> Z.
Variable WORKOUT_PLAN : gmap string (gmap string workout).

Lemma Math_ceil_div_spec a b :
  0 < b -> (Math_ceil_div a b - 1) * b < a <= Math_ceil_div a b * b.
Proof.
  intros Hb. unfold Math_ceil_div.
  pose proof (Z.div_mod (- a) b) as Hdm.
  pose proof (Z.mod_pos_bound (- a) b Hb) as Hm.
  nia.
Qed.

Lemma Math_ceil_div_nonneg a b : 0 < b -> 0 <= a -> 0 <= Math_ceil_div a b.
Proof.
  intros Hb Ha. pose proof (Math_ceil_div_spec a b Hb). nia.
Qed.

Lemma Math_ceil_div_mul n b : 0 < b -> Math_ceil_div (n * b) b = n.
Proof.
  intros Hb. unfold Math_ceil_div.
  replace (- (n * b)) with ((- n) * b) by ring.
  rewrite Z.div_mul by lia. ring.
Qed.

Lemma getWeekAndDay_before now startDateStr :
  setHours0 LocalTZA now < setHours0 LocalTZA (Date_parse startDateStr) ->
  getWeekAndDay LocalTZA Date_parse now startDateStr = Coordinate 0 0 (Some "Program hasn't started yet!").
Proof.
  intros Hlt. unfold getWeekAndDay.
  destruct (Z.ltb_spec (setHours0 LocalTZA now) (setHours0 LocalTZA (Date_parse startDateStr))); [reflexivity | lia].
Qed.

Lemma getWeekAndDay_from now startDateStr :
  setHours0 LocalTZA (Date_parse startDateStr) <= setHours0 LocalTZA now ->
  getWeekAndDay LocalTZA Date_parse now startDateStr =
    let diffDays := Math_ceil_div (setHours0 LocalTZA now - setHours0 LocalTZA (Date_parse startDateStr)) msPerDay in
    Coordinate (diffDays / 7 + 1) (diffDays mod 7 + 1) None.
Proof.
  intros Hle. unfold getWeekAndDay.
  destruct (Z.ltb_spec (setHours0 LocalTZA now) (setHours0 LocalTZA (Date_parse startDateStr))); [lia |].
  rewrite Z.abs_eq by lia. cbv zeta.
  rewrite Z.rem_mod_nonneg; [reflexivity | | lia].
  apply Math_ceil_div_nonneg; [reflexivity | lia].
Qed.

(** In terms of the two time values after [setHours(0, 0, 0, 0)]: from
    the normalised start on, the coordinate is
    [week = floor(diffDays / 7) + 1] and [day = diffDays mod 7 + 1], where
    [diffDays] is the elapsed time in days rounded up: the least [n] with
    [elapsed <= n * msPerDay]. With no time elapsed that is week 1, day
    1; with seven days elapsed it is week 2, day 1. Which calendar days
    those are depends on the host, see below. *)
Theorem getWeekAndDay_started now startDateStr
    (Hle : setHours0 LocalTZA (Date_parse startDateStr) <= setHours0 LocalTZA now) :
  (exists diffDays,
      (diffDays - 1) * msPerDay
        < setHours0 LocalTZA now - setHours0 LocalTZA (Date_parse startDateStr)
        <= diffDays * msPerDay /\
      getWeekAndDay LocalTZA Date_parse now startDateStr
        = Coordinate (diffDays / 7 + 1) (diffDays mod 7 + 1) None) /\
  (setHours0 LocalTZA now = setHours0 LocalTZA (Date_parse startDateStr) ->
     getWeekAndDay LocalTZA Date_parse now startDateStr = Coordinate 1 1 None) /\
  (setHours0 LocalTZA now = setHours0 LocalTZA (Date_parse startDateStr) + 7 * msPerDay ->
     getWeekAndDay LocalTZA Date_parse now startDateStr = Coordinate 2 1 None).
Proof.
  rewrite (getWeekAndDay_from _ _ Hle). cbv zeta.
  split; [| split].
  - eexists. split; [| reflexivity].
    apply Math_ceil_div_spec. reflexivity.
  - intros ->. rewrite Z.sub_diag. reflexivity.
  - intros ->.
    replace (setHours0 LocalTZA (Date_parse startDateStr) + 7 * msPerDay
             - setHours0 LocalTZA (Date_parse startDateStr)) with (7 * msPerDay) by ring.
    rewrite Math_ceil_div_mul by reflexivity. reflexivity.
Qed.

(** While the normalised time value of now is below that of the start,
    [getWeekAndDay] returns the not-started coordinate, week 0 and day 0
    with its message, and [renderTodayWorkout] shows it without reading
    any key of the plan. *)
Theorem calendar_not_started now
    (Hlt : setHours0 LocalTZA now < setHours0 LocalTZA (Date_parse PROGRAM_START_DATE)) :
  getWeekAndDay LocalTZA Date_parse now PROGRAM_START_DATE
    = Coordinate 0 0 (Some "Program hasn't started yet!") /\
  renderTodayWorkout LocalTZA Date_parse WORKOUT_PLAN now = (CompletedOrNotStarted 0 0, []).
Proof.
  pose proof (getWeekAndDay_before _ _ Hlt) as Hc.
  split; [exact Hc |].
  unfold renderTodayWorkout. rewrite Hc. reflexivity.
Qed.

(** C4. When the computed week is beyond week 26 the program is shown
    as completed, whatever the plan holds at that week and day: no key
    of the plan is read. *)
Theorem calendar_completed now
    (Hgt : 26 < week (getWeekAndDay LocalTZA Date_parse now PROGRAM_START_DATE)) :
  renderTodayWorkout LocalTZA Date_parse WORKOUT_PLAN now
    = (CompletedOrNotStarted (week (getWeekAndDay LocalTZA Date_parse now PROGRAM_START_DATE))
                             (day (getWeekAndDay LocalTZA Date_parse now PROGRAM_START_DATE)), []).
Proof.
  unfold renderTodayWorkout. cbv zeta.
  destruct (Z.gtb_spec (week (getWeekAndDay LocalTZA Date_parse now PROGRAM_START_DATE)) 26) as [_ | Hn];
    [reflexivity | lia].
Qed.

End CalendarFacts.

(** ** Numbers *)

Lemma truthy_or0 x : truthy (or0 x) = truthy x.
Proof.
  unfold or0. destruct (truthy x) eqn:E; [exact E | reflexivity].
Qed.

Lemma or0_blank_or_zero x : blank_or_zero x -> or0 x = num 0.
Proof. intros [-> | ->]; reflexivity. Qed.

Lemma gt0_Num q : gt0 (Num q) = true <-> (0 < q)%Qc.
Proof. unfold gt0. apply bool_decide_eq_true. Qed.

Lemma gt0_nonpositive q : (q <= 0)%Qc -> gt0 (Num q) = false.
Proof.
  intros Hle. unfold gt0. apply bool_decide_eq_false.
  intros Hlt. apply (Qclt_not_le _ _ Hlt Hle).
Qed.

(** ** Running the persistence functions *)

Ltac run :=
  unfold getDailyData, getAllWeights, idb_get, idb_getAll, ensure_db, openDatabase,
    alert, emit, backend_errors, await, try_catch, detach, resolve, reject in *;
  cbn in *.

Lemma getDailyData_stored date w : stored (snd (getDailyData date w)) = stored w.
Proof.
  destruct w as [[] dd ws [| [] [| [] [| [] fs]]] tr]; reflexivity.
Qed.

(** The requests and alerts [getDailyData] adds are reads. *)
Lemma getDailyData_trace date w :
  exists es, trace (snd (getDailyData date w)) = es ++ trace w /\
             forallb (fun e => negb (is_put e)) es = true.
Proof.
  destruct w as [[] dd ws [| [] [| [] [| [] fs]]] tr]; cbn;
    first [ by exists [Request (ReqGet dailyDataStore (VStr date))]
          | by exists [Request ReqOpen]
          | by exists [Request (ReqGet dailyDataStore (VStr date)); Request ReqOpen] ].
Qed.

(** ** The guards of the click handlers *)

(** C10. When each of the four macro inputs is blank, not a number, or
    zero, the macros handler only shows its alert: the world afterwards
    is the world before with that one alert added, so no request was
    issued and both stores are as they were. *)
Theorem saveMacros_refused today calorieInput proteinInput carbInput fatInput w
    (Hcalories : blank_or_zero calorieInput)
    (Hprotein : blank_or_zero proteinInput)
    (Hcarbs : blank_or_zero carbInput)
    (Hfat : blank_or_zero fatInput) :
  saveMacrosBtn_click today calorieInput proteinInput carbInput fatInput w
    = (Fulfilled tt, add_event (Alert "Please enter at least one macro value.") w).
Proof.
  unfold saveMacrosBtn_click.
  rewrite !or0_blank_or_zero by assumption.
  reflexivity.
Qed.

(** C5. A weight that is not a number, zero or negative is refused: the
    handler only shows its alert, no request is issued and the stores
    are unchanged. A strictly positive weight is written to 'weights'
    under the date (when the backend answers the requests), and
    'dailyData' is untouched. *)
Theorem saveWeight_only_positive today weightInput w :
  (weightInput = NaN \/ (exists q, weightInput = Num q /\ (q <= 0)%Qc) ->
     saveWeightBtn_click today weightInput w
       = (Fulfilled tt, add_event (Alert "Please enter a valid weight.") w)) /\
  (forall q, weightInput = Num q -> (0 < q)%Qc -> faults w = [] ->
     weights (snd (saveWeightBtn_click today weightInput w))
       = <[VStr today := <["weight" := VNum weightInput]> {["date" := VStr today]}]> (weights w) /\
     dailyData (snd (saveWeightBtn_click today weightInput w)) = dailyData w).
Proof.
  split.
  - intros Hbad. unfold saveWeightBtn_click.
    assert (gt0 weightInput = false) as ->; [| reflexivity].
    destruct Hbad as [-> | (q & -> & Hle)]; [reflexivity |].
    by apply gt0_nonpositive.
  - intros q -> Hpos Hok. unfold saveWeightBtn_click.
    assert (gt0 (Num q) = true) as -> by by apply gt0_Num.
    destruct w as [[] dd ws fs tr]; simpl in Hok; subst fs; split; reflexivity.
Qed.

(** C6. When the read of the existing record fails, in the macros
    handler, the handler reports the error and stops: both stores are as
    they were and no [put] is among the requests issued. *)
Theorem saveMacros_read_failure today calorieInput proteinInput carbInput fatInput
    w reason w1
    (Hany : truthy calorieInput || truthy proteinInput
            || truthy carbInput || truthy fatInput = true)
    (Hread : getDailyData today w = (Rejected reason, w1)) :
  saveMacrosBtn_click today calorieInput proteinInput carbInput fatInput w
    = (Fulfilled tt, add_event (Alert ("Error saving macros: " +:+ reason)) w1) /\
  stored w1 = stored w /\
  exists es, trace w1 = es ++ trace w /\
             forallb (fun e => negb (is_put e)) es = true.
Proof.
  split; [| split].
  - unfold saveMacrosBtn_click. rewrite !truthy_or0, Hany.
    unfold try_catch, await at 1. rewrite Hread. reflexivity.
  - pose proof (getDailyData_stored today w) as Hs. by rewrite Hread in Hs.
  - pose proof (getDailyData_trace today w) as Ht. by rewrite Hread in Ht.
Qed.

(** ** Records and their keys *)

Lemma keyOf_date record k : keyOf record = Some k -> record !! "date" = Some k.
Proof.
  unfold keyOf. destruct (record !! "date") as [[[| q] | s] | ]; cbn; done.
Qed.

Lemma keyOf_spread date (data : object) :
  data !! "date" = None -> keyOf (data ∪ {["date" := VStr date]}) = Some (VStr date).
Proof.
  intros Hnone. unfold keyOf.
  by rewrite lookup_union_r, lookup_singleton_eq.
Qed.

Lemma keyOf_spread_own date (data : object) :
  data !! "date" = Some (VStr date) ->
  keyOf (data ∪ {["date" := VStr date]}) = Some (VStr date).
Proof.
  intros Hsome. unfold keyOf.
  by rewrite (lookup_union_Some_l _ _ _ _ Hsome).
Qed.

Lemma spread_date_own (record : object) v x :
  record !! "date" = Some v -> record ∪ {["date" := x]} = record.
Proof.
  intros Hsome. apply map_eq. intros i.
  destruct (record !! i) as [y | ] eqn:Hi.
  - by apply lookup_union_Some_l.
  - rewrite lookup_union_r by done.
    apply lookup_singleton_None. congruence.
Qed.

Lemma withMacros_date (e : object) calories protein carbs fat :
  withMacros e calories protein carbs fat !! "date" = e !! "date".
Proof. unfold withMacros. by rewrite !lookup_insert_ne. Qed.

Lemma dailyFields_date steps water calories protein carbs fat :
  dailyFields steps water calories protein carbs fat !! "date" = None.
Proof. reflexivity. Qed.

Lemma keyed_empty : keyed ∅.
Proof. intros k r Hk. by rewrite lookup_empty in Hk. Qed.

Lemma keyed_insert m record k :
  keyed m -> keyOf record = Some k -> keyed (<[k := record]> m).
Proof.
  intros Hm Hk k' r'. rewrite lookup_insert.
  case_decide as Heq.
  - intros [= <-]. subst k'. by apply keyOf_date.
  - apply Hm.
Qed.

(** ** What a save does to the stores, whatever the backend answers *)

Lemma getDailyData_result date w r w1 :
  getDailyData date w = (Fulfilled r, w1) -> r = dailyData w !! VStr date.
Proof.
  destruct w as [[] dd ws [| [] [| [] [| [] fs]]] tr]; run; congruence.
Qed.

Lemma saveDailyData_effect date data w :
  weights (snd (saveDailyData date data w)) = weights w /\
  (dailyData (snd (saveDailyData date data w)) = dailyData w \/
   exists k, keyOf (data ∪ {["date" := VStr date]}) = Some k /\
     dailyData (snd (saveDailyData date data w))
       = <[k := data ∪ {["date" := VStr date]}]> (dailyData w)).
Proof.
  unfold saveDailyData, idb_put, await at 1.
  destruct (keyOf (data ∪ {["date" := VStr date]})) as [k | ] eqn:Hk.
  - destruct w as [[] dd ws [| [] [| [] [| [] fs]]] tr]; cbn; (split; [reflexivity |]);
      first [ by left | right; by exists k ].
  - destruct w as [[] dd ws [| [] fs] tr]; cbn; (split; [reflexivity | by left]).
Qed.

Lemma renderDashboardData_stored date w :
  stored (snd (renderDashboardData date w)) = stored w.
Proof.
  unfold renderDashboardData, await.
  pose proof (getDailyData_stored date w) as Hs.
  by destruct (getDailyData date w) as [[r | reason] w1].
Qed.

Lemma saveDailyDataBtn_click_stored today s wa c p cb f w :
  stored (snd (saveDailyDataBtn_click today s wa c p cb f w))
    = stored (snd (saveDailyData today
        (dailyFields (or0 s) (or0 wa) (or0 c) (or0 p) (or0 cb) (or0 f)) w)).
Proof.
  unfold saveDailyDataBtn_click, try_catch, await at 1. cbv zeta.
  destruct (saveDailyData today _ w) as [[[] | reason] w1]; [| reflexivity].
  cbn. by rewrite renderDashboardData_stored.
Qed.

Lemma saveMacrosBtn_click_stored today c p cb f w :
  truthy c || truthy p || truthy cb || truthy f = true ->
  stored (snd (saveMacrosBtn_click today c p cb f w))
    = match getDailyData today w with
      | (Fulfilled r, w1) =>
          stored (snd (saveDailyData today
            (withMacros (default ∅ r) (or0 c) (or0 p) (or0 cb) (or0 f)) w1))
      | (Rejected _, w1) => stored w1
      end.
Proof.
  intros Hany. unfold saveMacrosBtn_click. rewrite !truthy_or0, Hany.
  unfold try_catch, await at 1.
  destruct (getDailyData today w) as [[r | reason] w1]; [| reflexivity].
  unfold await at 1.
  destruct (saveDailyData today _ w1) as [[[] | reason] w2]; [| reflexivity].
  cbn. by rewrite renderDashboardData_stored.
Qed.

Lemma untouched_stored key w w1 w2 :
  stored w2 = stored w1 -> untouched_except key w w1 -> untouched_except key w w2.
Proof.
  unfold stored, untouched_except. intros [= Hd Hw] [Hw1 Hd1].
  rewrite Hd, Hw. by split.
Qed.

Lemma untouched_refl key w : untouched_except key w w.
Proof. by split. Qed.

Lemma saveDailyData_frame date data w :
  (forall k, keyOf (data ∪ {["date" := VStr date]}) = Some k -> k = VStr date) ->
  untouched_except (VStr date) w (snd (saveDailyData date data w)).
Proof.
  intros Hkey.
  destruct (saveDailyData_effect date data w) as [Hw [Hd | (k & Hk & Hd)]];
    (split; [exact Hw |]); intros k' Hne; rewrite Hd; [reflexivity |].
  apply Hkey in Hk. subst k. by apply lookup_insert_ne.
Qed.

Lemma saveDailyData_keyed date data w :
  keyed (dailyData w) -> keyed (dailyData (snd (saveDailyData date data w))).
Proof.
  intros Hm.
  destruct (saveDailyData_effect date data w) as [_ [Hd | (k & Hk & Hd)]]; rewrite Hd.
  - exact Hm.
  - by apply keyed_insert.
Qed.

(** The record the macros handler builds has the key it was read under. *)
Lemma merged_key today w calories protein carbs fat :
  keyed (dailyData w) ->
  keyOf (withMacros (default ∅ (dailyData w !! VStr today)) calories protein carbs fat
           ∪ {["date" := VStr today]}) = Some (VStr today).
Proof.
  intros Hkeyed.
  destruct (dailyData w !! VStr today) as [e | ] eqn:He; cbn.
  - apply Hkeyed in He.
    apply keyOf_spread_own. by rewrite withMacros_date.
  - apply keyOf_spread. by rewrite withMacros_date.
Qed.

(** C9. A save for one date leaves every record under another key of
    'dailyData', and all of 'weights', as they were, whatever the backend
    answers: for [saveDailyData] with a field set (which carries no
    [date] of its own), for the macros handler on a store whose records
    sit under their own dates, and for the dashboard handler. *)
Theorem upsert_frame d1 w :
  (forall f : object, f !! "date" = None ->
     untouched_except (VStr d1) w (snd (saveDailyData d1 f w))) /\
  (forall calorieInput proteinInput carbInput fatInput,
     keyed (dailyData w) ->
     untouched_except (VStr d1) w
       (snd (saveMacrosBtn_click d1 calorieInput proteinInput carbInput fatInput w))) /\
  (forall stepsInput waterInput calorieInput proteinInput carbInput fatInput,
     untouched_except (VStr d1) w
       (snd (saveDailyDataBtn_click d1 stepsInput waterInput
               calorieInput proteinInput carbInput fatInput w))).
Proof.
  split; [| split].
  - intros f Hf. apply saveDailyData_frame. intros k.
    rewrite keyOf_spread by done. congruence.
  - intros c p cb fa Hkeyed.
    destruct (truthy c || truthy p || truthy cb || truthy fa) eqn:Hany.
    + pose proof (saveMacrosBtn_click_stored d1 c p cb fa w Hany) as Hclick.
      pose proof (getDailyData_stored d1 w) as Hs.
      destruct (getDailyData d1 w) as [[r | reason] w1] eqn:Hread; cbn in Hs;
        (eapply untouched_stored; [exact Hclick |]).
      * apply getDailyData_result in Hread. subst r.
        injection Hs as Hd Hw.
        destruct (saveDailyData_frame d1
                    (withMacros (default ∅ (dailyData w !! VStr d1))
                       (or0 c) (or0 p) (or0 cb) (or0 fa)) w1) as [Hw2 Hd2].
        { intros k. rewrite merged_key by done. congruence. }
        split; [by rewrite Hw2 |].
        intros k Hne. by rewrite Hd2, Hd.
      * eapply untouched_stored; [exact Hs | apply untouched_refl].
    + unfold saveMacrosBtn_click. rewrite !truthy_or0, Hany. by split.
  - intros s wa c p cb fa.
    eapply untouched_stored; [apply saveDailyDataBtn_click_stored |].
    apply saveDailyData_frame. intros k.
    rewrite keyOf_spread by apply dailyFields_date. congruence.
Qed.

(** A [date] property inside the data given to [saveDailyData] is
    spread over the date argument and becomes the key: the field sets
    above carry none, and the handlers never pass one that differs. *)
Lemma saveDailyData_own_date :
  dailyData (snd (saveDailyData "2025-01-01"
                    (<["date" := VStr "2025-01-02"]> {["steps" := VNum (num 10)]}) fresh))
  = {[VStr "2025-01-02" := <["date" := VStr "2025-01-02"]> {["steps" := VNum (num 10)]}]}.
Proof. reflexivity. Qed.

Lemma saveMacrosBtn_click_keyed today c p cb f w :
  keyed (dailyData w) ->
  keyed (dailyData (snd (saveMacrosBtn_click today c p cb f w))).
Proof.
  intros Hm.
  destruct (truthy c || truthy p || truthy cb || truthy f) eqn:Hany.
  - pose proof (saveMacrosBtn_click_stored today c p cb f w Hany) as Hs.
    pose proof (getDailyData_stored today w) as Hr.
    destruct (getDailyData today w) as [[r | reason] w1].
    + injection Hs as -> _. apply saveDailyData_keyed.
      injection Hr as -> _. exact Hm.
    + injection Hs as -> _. injection Hr as -> _. exact Hm.
  - unfold saveMacrosBtn_click. rewrite !truthy_or0, Hany. exact Hm.
Qed.

Lemma saveDailyDataBtn_click_keyed today s wa c p cb f w :
  keyed (dailyData w) ->
  keyed (dailyData (snd (saveDailyDataBtn_click today s wa c p cb f w))).
Proof.
  intros Hm.
  pose proof (saveDailyDataBtn_click_stored today s wa c p cb f w) as Hs.
  injection Hs as -> _. by apply saveDailyData_keyed.
Qed.

(** ** Saves on a backend that answers every request *)

Lemma saveDailyData_ok date data w :
  faults w = [] ->
  stored (snd (saveDailyData date data w))
    = (match keyOf (data ∪ {["date" := VStr date]}) with
       | Some k => <[k := data ∪ {["date" := VStr date]}]> (dailyData w)
       | None => dailyData w
       end, weights w) /\
  faults (snd (saveDailyData date data w)) = [].
Proof.
  intros Hok. unfold saveDailyData, idb_put, await at 1.
  destruct w as [[] dd ws fs tr]; cbn in Hok; subst fs;
    destruct (keyOf (data ∪ {["date" := VStr date]})); by run.
Qed.

Lemma getDailyData_ok date w :
  faults w = [] ->
  fst (getDailyData date w) = Fulfilled (dailyData w !! VStr date) /\
  stored (snd (getDailyData date w)) = stored w /\
  faults (snd (getDailyData date w)) = [].
Proof.
  intros Hok. destruct w as [[] dd ws fs tr]; cbn in Hok; subst fs; by run.
Qed.

Lemma renderDashboardData_ok date w :
  faults w = [] -> faults (snd (renderDashboardData date w)) = [].
Proof.
  intros Hok. destruct w as [[] dd ws fs tr]; cbn in Hok; subst fs; reflexivity.
Qed.

Lemma saveDailyDataBtn_click_ok today s wa c p cb f w :
  faults w = [] ->
  faults (snd (saveDailyDataBtn_click today s wa c p cb f w)) = [].
Proof.
  intros Hok. unfold saveDailyDataBtn_click, try_catch, await at 1. cbv zeta.
  destruct (saveDailyData_ok today
              (dailyFields (or0 s) (or0 wa) (or0 c) (or0 p) (or0 cb) (or0 f)) w Hok)
    as [_ Hf].
  destruct (saveDailyData today _ w) as [[[] | reason] w1]; cbn in Hf |- *.
  - by apply renderDashboardData_ok.
  - exact Hf.
Qed.

(** The stores after the macros handler has gone through. *)
Lemma saveMacrosBtn_click_ok today c p cb f w :
  faults w = [] ->
  truthy c || truthy p || truthy cb || truthy f = true ->
  stored (snd (saveMacrosBtn_click today c p cb f w))
    = (let record :=
         withMacros (default ∅ (dailyData w !! VStr today)) (or0 c) (or0 p) (or0 cb) (or0 f)
           ∪ {["date" := VStr today]} in
       match keyOf record with
       | Some k => <[k := record]> (dailyData w)
       | None => dailyData w
       end, weights w) /\
  faults (snd (saveMacrosBtn_click today c p cb f w)) = [].
Proof.
  intros Hok Hany.
  rewrite (saveMacrosBtn_click_stored today c p cb f w Hany).
  unfold saveMacrosBtn_click. rewrite !truthy_or0, Hany.
  unfold try_catch, await at 1.
  destruct (getDailyData_ok today w Hok) as (Hr & Hs & Hf).
  destruct (getDailyData today w) as [[r | reason] w1]; cbn in Hr, Hs, Hf; [| done].
  injection Hr as ->. injection Hs as Hd Hw.
  destruct (saveDailyData_ok today
              (withMacros (default ∅ (dailyData w !! VStr today))
                 (or0 c) (or0 p) (or0 cb) (or0 f)) w1 Hf) as [Hs2 Hf2].
  rewrite Hs2, Hd, Hw. split; [reflexivity |].
  unfold await at 1.
  destruct (saveDailyData today _ w1) as [[[] | reason] w2]; cbn in Hf2 |- *.
  - by apply renderDashboardData_ok.
  - exact Hf2.
Qed.

Lemma withMacros_again (record : object) calories protein carbs fat :
  record !! "calories" = Some (VNum calories) ->
  record !! "protein" = Some (VNum protein) ->
  record !! "carbs" = Some (VNum carbs) ->
  record !! "fat" = Some (VNum fat) ->
  withMacros record calories protein carbs fat = record.
Proof.
  intros Hc Hp Hcb Hf. unfold withMacros.
  rewrite (insert_id record "calories") by done.
  rewrite (insert_id record "protein") by done.
  rewrite (insert_id record "carbs") by done.
  by rewrite (insert_id record "fat").
Qed.

Lemma merged_again (e : object) calories protein carbs fat (x : value) :
  withMacros (withMacros e calories protein carbs fat ∪ {["date" := x]})
     calories protein carbs fat
  = withMacros e calories protein carbs fat ∪ {["date" := x]}.
Proof.
  apply withMacros_again; apply lookup_union_Some_l; unfold withMacros;
    by simplify_map_eq.
Qed.

(** ** Saving twice *)

Lemma saveDailyData_again date data w w1 :
  faults w = [] -> faults w1 = [] ->
  stored w1 = stored (snd (saveDailyData date data w)) ->
  stored (snd (saveDailyData date data w1)) = stored w1.
Proof.
  intros Hok Hok1 Hs.
  destruct (saveDailyData_ok date data w Hok) as [Hs0 _].
  destruct (saveDailyData_ok date data w1 Hok1) as [Hs1 _].
  rewrite Hs0 in Hs. rewrite Hs1. unfold stored in Hs |- *.
  injection Hs as Hd Hw. rewrite Hd, Hw.
  destruct (keyOf (data ∪ {["date" := VStr date]})) as [k | ]; [| reflexivity].
  by rewrite insert_insert_eq.
Qed.

(** C8. On a backend that answers every request, saving the same fields
    for the same date a second time leaves both stores as the first save
    left them: for [saveDailyData], for the macros handler and for the
    dashboard handler. *)
Theorem upsert_idempotent d w (Hok : faults w = []) :
  (forall f : object,
     stored (snd (saveDailyData d f (snd (saveDailyData d f w))))
       = stored (snd (saveDailyData d f w))) /\
  (forall calorieInput proteinInput carbInput fatInput,
     stored (snd (saveMacrosBtn_click d calorieInput proteinInput carbInput fatInput
               (snd (saveMacrosBtn_click d calorieInput proteinInput carbInput fatInput w))))
       = stored (snd (saveMacrosBtn_click d calorieInput proteinInput carbInput fatInput w))) /\
  (forall stepsInput waterInput calorieInput proteinInput carbInput fatInput,
     stored (snd (saveDailyDataBtn_click d stepsInput waterInput
                    calorieInput proteinInput carbInput fatInput
               (snd (saveDailyDataBtn_click d stepsInput waterInput
                       calorieInput proteinInput carbInput fatInput w))))
       = stored (snd (saveDailyDataBtn_click d stepsInput waterInput
                        calorieInput proteinInput carbInput fatInput w))).
Proof.
  split; [| split].
  - intros f. apply (saveDailyData_again d f w); [done | | done].
    by apply saveDailyData_ok.
  - intros c p cb fa.
    destruct (truthy c || truthy p || truthy cb || truthy fa) eqn:Hany.
    + destruct (saveMacrosBtn_click_ok d c p cb fa w Hok Hany) as [Hs1 Hok1].
      set (w1 := snd (saveMacrosBtn_click d c p cb fa w)) in *.
      destruct (saveMacrosBtn_click_ok d c p cb fa w1 Hok1 Hany) as [Hs2 _].
      rewrite Hs2. rewrite Hs1. cbv zeta.
      unfold stored in Hs1. cbv zeta in Hs1. injection Hs1 as Hd Hw.
      rewrite Hw. f_equal.
      set (e := default ∅ (dailyData w !! VStr d)) in *.
      set (record := withMacros e (or0 c) (or0 p) (or0 cb) (or0 fa)
                       ∪ {["date" := VStr d]}) in *.
      destruct (keyOf record) as [k | ] eqn:Hk.
      * destruct (decide (k = VStr d)) as [-> | Hne].
        -- rewrite Hd, lookup_insert_eq. cbn.
           unfold record at 1 2. rewrite merged_again. fold record.
           rewrite (spread_date_own record (VStr d)) by by apply keyOf_date.
           rewrite Hk. by rewrite insert_insert_eq.
        -- assert (dailyData w1 !! VStr d = dailyData w !! VStr d) as ->
             by (rewrite Hd; by apply lookup_insert_ne).
           fold e. fold record. rewrite Hk, Hd. by rewrite insert_insert_eq.
      * rewrite Hd. fold e. fold record. by rewrite Hk.
    + unfold saveMacrosBtn_click. rewrite !truthy_or0, Hany. reflexivity.
  - intros s wa c p cb fa.
    rewrite !saveDailyDataBtn_click_stored.
    rewrite <- (saveDailyDataBtn_click_stored d s wa c p cb fa w).
    apply (saveDailyData_again d _ w); [done | | ].
    + by apply saveDailyDataBtn_click_ok.
    + apply saveDailyDataBtn_click_stored.
Qed.

(** ** Merging and replacing *)

Lemma saveDailyData_replaces date (data : object) w :
  faults w = [] -> data !! "date" = None ->
  dailyData (snd (saveDailyData date data w)) !! VStr date
    = Some (data ∪ {["date" := VStr date]}).
Proof.
  intros Hok Hdate.
  destruct (saveDailyData_ok date data w Hok) as [Hs _].
  rewrite keyOf_spread in Hs by done.
  injection Hs as -> _. apply lookup_insert_eq.
Qed.

Lemma saveDailyDataBtn_click_replaces today s wa c p cb f w :
  faults w = [] ->
  dailyData (snd (saveDailyDataBtn_click today s wa c p cb f w)) !! VStr today
    = Some (dailyFields (or0 s) (or0 wa) (or0 c) (or0 p) (or0 cb) (or0 f)
              ∪ {["date" := VStr today]}).
Proof.
  intros Hok.
  pose proof (saveDailyDataBtn_click_stored today s wa c p cb f w) as Hs.
  injection Hs as -> _.
  apply saveDailyData_replaces; [done | apply dailyFields_date].
Qed.

(** C1, as the code has it. The macros handler is the read-merge-write:
    on a backend that answers every request and a store whose records
    sit under their own dates, when some macro input is a non-zero
    number, the record under the date afterwards holds the four macros
    as entered (blank or not a number: 0), the date, and every other
    property as it was stored before. [saveDailyData] and the dashboard
    handler write a whole record instead: what is stored afterwards is
    the date with exactly the fields given, for the dashboard handler
    all six with blank inputs as 0. *)
Theorem saveMacros_merges today w
    (Hok : faults w = []) (Hkeyed : keyed (dailyData w)) :
  (forall calorieInput proteinInput carbInput fatInput,
     truthy calorieInput || truthy proteinInput
       || truthy carbInput || truthy fatInput = true ->
     exists record,
       dailyData (snd (saveMacrosBtn_click today
                         calorieInput proteinInput carbInput fatInput w)) !! VStr today
         = Some record /\
       record !! "calories" = Some (VNum (or0 calorieInput)) /\
       record !! "protein" = Some (VNum (or0 proteinInput)) /\
       record !! "carbs" = Some (VNum (or0 carbInput)) /\
       record !! "fat" = Some (VNum (or0 fatInput)) /\
       record !! "date" = Some (VStr today) /\
       forall name : string,
         name <> "calories" -> name <> "protein" -> name <> "carbs" ->
         name <> "fat" -> name <> "date" ->
         record !! name = default ∅ (dailyData w !! VStr today) !! name) /\
  (forall f : object, f !! "date" = None ->
     dailyData (snd (saveDailyData today f w)) !! VStr today
       = Some (f ∪ {["date" := VStr today]})) /\
  (forall stepsInput waterInput calorieInput proteinInput carbInput fatInput,
     dailyData (snd (saveDailyDataBtn_click today stepsInput waterInput
                       calorieInput proteinInput carbInput fatInput w)) !! VStr today
       = Some (dailyFields (or0 stepsInput) (or0 waterInput) (or0 calorieInput)
                 (or0 proteinInput) (or0 carbInput) (or0 fatInput)
                 ∪ {["date" := VStr today]})).
Proof.
  split; [| split].
  - intros c p cb fa Hany.
    destruct (saveMacrosBtn_click_ok today c p cb fa w Hok Hany) as [Hs _].
    cbv zeta in Hs. rewrite merged_key in Hs by done.
    injection Hs as Hd _.
    eexists. split; [rewrite Hd; apply lookup_insert_eq |].
    repeat split.
    + apply lookup_union_Some_l. unfold withMacros. by simplify_map_eq.
    + apply lookup_union_Some_l. unfold withMacros. by simplify_map_eq.
    + apply lookup_union_Some_l. unfold withMacros. by simplify_map_eq.
    + apply lookup_union_Some_l. unfold withMacros. by simplify_map_eq.
    + apply keyOf_date. by apply merged_key.
    + intros name Hc Hp Hcb Hf Hdate.
      rewrite lookup_union_l by by apply lookup_singleton_None.
      unfold withMacros. by rewrite !lookup_insert_ne.
  - intros f Hf. by apply saveDailyData_replaces.
  - intros s wa c p cb fa. by apply saveDailyDataBtn_click_replaces.
Qed.

(** C7, as the code has it. For a date with nothing stored, on a backend
    that answers every request: a dashboard save with 5000 in the steps
    input and the other inputs blank, then a read, returns the record
    with the date, steps 5000 and the other five fields 0; the zeros are
    written by the handler. [saveDailyData] given only the steps, then a
    read, returns the date and the steps and nothing else. *)
Theorem save_steps_then_read d w
    (Hok : faults w = []) (Hnew : dailyData w !! VStr d = None) :
  fst (getDailyData d
         (snd (saveDailyDataBtn_click d (num 5000) NaN NaN NaN NaN NaN w)))
    = Fulfilled (Some (<["date" := VStr d]>
        (dailyFields (num 5000) (num 0) (num 0) (num 0) (num 0) (num 0)))) /\
  fst (getDailyData d (snd (saveDailyData d {["steps" := VNum (num 5000)]} w)))
    = Fulfilled (Some (<["date" := VStr d]> {["steps" := VNum (num 5000)]})).
Proof.
  split.
  - destruct (getDailyData_ok d
                (snd (saveDailyDataBtn_click d (num 5000) NaN NaN NaN NaN NaN w)))
      as (-> & _).
    { by apply saveDailyDataBtn_click_ok. }
    rewrite saveDailyDataBtn_click_replaces by done.
    rewrite <- insert_union_singleton_r by apply dailyFields_date.
    reflexivity.
  - destruct (getDailyData_ok d
                (snd (saveDailyData d {["steps" := VNum (num 5000)]} w)))
      as (-> & _).
    { by apply saveDailyData_ok. }
    rewrite saveDailyData_replaces by done.
    by rewrite <- insert_union_singleton_r.
Qed.

(** ** Where the code departs from the field-wise merge *)

(** C1 does not hold of the code. [saveDailyData] with the steps and
    then with the water leaves no steps in the record; the dashboard
    handler with 10 steps and then, the steps input blank, 2 litres of
    water leaves steps 0; the macros handler with a blank protein input
    puts 0 over a stored protein of 100. *)
Lemma saves_overwrite_fields :
  storedField
    (snd (saveDailyData "2025-01-01" {["water" := VNum (num 2)]}
       (snd (saveDailyData "2025-01-01" {["steps" := VNum (num 10)]} fresh))))
    "2025-01-01" "steps" <> Some (VNum (num 10)) /\
  storedField
    (snd (saveDailyDataBtn_click "2025-01-01" NaN (num 2) NaN NaN NaN NaN
       (snd (saveDailyDataBtn_click "2025-01-01" (num 10) NaN NaN NaN NaN NaN fresh))))
    "2025-01-01" "steps" <> Some (VNum (num 10)) /\
  storedField
    (snd (saveMacrosBtn_click "2025-01-01" (num 500) NaN NaN NaN
       (snd (saveMacrosBtn_click "2025-01-01" NaN (num 100) NaN NaN fresh))))
    "2025-01-01" "protein" <> Some (VNum (num 100)).
Proof.
  split; [| split]; vm_compute; discriminate.
Qed.

(** C7 does not hold of [saveDailyData]: given only the steps, the
    record read back is not the one with the five zeros; it has no
    water property at all. *)
Lemma saved_steps_alone_have_no_zeros :
  fst (getDailyData "2025-01-01"
         (snd (saveDailyData "2025-01-01" {["steps" := VNum (num 5000)]} fresh)))
    <> Fulfilled (Some (<["date" := VStr "2025-01-01"]>
         (dailyFields (num 5000) (num 0) (num 0) (num 0) (num 0) (num 0)))).
Proof.
  intros Heq.
  apply (f_equal (fun s => match s with
                           | Fulfilled (Some record) => record !! "water"
                           | _ => None
                           end)) in Heq.
  vm_compute in Heq. discriminate.
Qed.

(** ** The host's time zone

    The calendar statements above are about the two time values after
    [setHours(0, 0, 0, 0)]. How those relate to calendar dates depends on
    the host: the code means the program to start on the date of
    [PROGRAM_START_DATE] (its comment: "Start on Monday, July 7th,
    2025", and the schedule labels day 1 'Monday'), and on a host behind
    UTC it starts the local day before. *)

(** C2. The start date does not give week 1, day 1 on a host behind
    UTC, nor the date seven days later week 2, day 1. ['2025-07-07'] is
    read as UTC midnight and then set to local midnight, which on such a
    host is the midnight of July 6th: from the first to the last
    millisecond of the local July 7th the coordinate is week 1, day 2,
    and through the local July 14th it is week 2, day 2. *)
Theorem start_date_behind_utc :
  getWeekAndDay utc_minus_5 parse_2025_07_07
    (start_2025_07_07 + 5 * msPerHour) PROGRAM_START_DATE = Coordinate 1 2 None /\
  getWeekAndDay utc_minus_5 parse_2025_07_07
    (start_2025_07_07 + 17 * msPerHour) PROGRAM_START_DATE = Coordinate 1 2 None /\
  getWeekAndDay utc_minus_5 parse_2025_07_07
    (start_2025_07_07 + 29 * msPerHour - 1) PROGRAM_START_DATE = Coordinate 1 2 None /\
  getWeekAndDay utc_minus_5 parse_2025_07_07
    (start_2025_07_07 + 7 * msPerDay + 5 * msPerHour) PROGRAM_START_DATE
    = Coordinate 2 2 None /\
  getWeekAndDay utc_minus_5 parse_2025_07_07
    (start_2025_07_07 + 7 * msPerDay + 29 * msPerHour - 1) PROGRAM_START_DATE
    = Coordinate 2 2 None.
Proof. repeat split. Qed.

(** C3. The day before the start date is not shown as not started on a
    host behind UTC. Through the local July 6th, from its first to its
    last millisecond, the coordinate is week 1, day 1, not week 0, day 0,
    and [renderTodayWorkout] reads 'Week 1' and 'Day 1' from the plan and
    shows that workout. *)
Theorem day_before_start_behind_utc :
  getWeekAndDay utc_minus_5 parse_2025_07_07
    (start_2025_07_07 - 19 * msPerHour) PROGRAM_START_DATE = Coordinate 1 1 None /\
  getWeekAndDay utc_minus_5 parse_2025_07_07
    (start_2025_07_07 - 7 * msPerHour) PROGRAM_START_DATE = Coordinate 1 1 None /\
  getWeekAndDay utc_minus_5 parse_2025_07_07
    (start_2025_07_07 + 5 * msPerHour - 1) PROGRAM_START_DATE = Coordinate 1 1 None /\
  renderTodayWorkout utc_minus_5 parse_2025_07_07 planWithWeek1
    (start_2025_07_07 - 7 * msPerHour)
    = (TodaysWorkout 1 1 (Workout "Full Body" "Foundation." []), ["Week 1"; "Day 1"]).
Proof. repeat split. Qed.

(** Across a local day of 25 hours the elapsed time between the two
    midnights is a whole number of days and one hour, which
    [Math.ceil] rounds up: at 2025-10-27T12:00:00Z, 112 calendar days
    after the start, [diffDays] is 113. *)
Lemma getWeekAndDay_long_day :
  getWeekAndDay summer_then_winter parse_2025_07_07 1761566400000 PROGRAM_START_DATE
  = Coordinate 17 2 None.
Proof. reflexivity. Qed.

(** ** Instances *)

Lemma getWeekAndDay_started_witness :
  setHours0 utc (parse_2025_07_07 PROGRAM_START_DATE)
    <= setHours0 utc (start_2025_07_07 + 7 * msPerDay + 9 * msPerHour) /\
  getWeekAndDay utc parse_2025_07_07
    (start_2025_07_07 + 7 * msPerDay + 9 * msPerHour) PROGRAM_START_DATE
  = Coordinate 2 1 None.
Proof.
  assert (setHours0 utc (parse_2025_07_07 PROGRAM_START_DATE)
          <= setHours0 utc (start_2025_07_07 + 7 * msPerDay + 9 * msPerHour)) as Hle
    by (vm_compute; discriminate).
  split; [exact Hle |].
  destruct (getWeekAndDay_started utc parse_2025_07_07 _ PROGRAM_START_DATE Hle)
    as (_ & _ & Hweek).
  apply Hweek. reflexivity.
Defined.

Lemma calendar_not_started_witness :
  setHours0 utc (start_2025_07_07 - 1 * msPerDay)
    < setHours0 utc (parse_2025_07_07 PROGRAM_START_DATE) /\
  renderTodayWorkout utc parse_2025_07_07 planWithWeek27 (start_2025_07_07 - 1 * msPerDay)
  = (CompletedOrNotStarted 0 0, []).
Proof.
  assert (setHours0 utc (start_2025_07_07 - 1 * msPerDay)
          < setHours0 utc (parse_2025_07_07 PROGRAM_START_DATE)) as Hlt
    by reflexivity.
  split; [exact Hlt |].
  apply (calendar_not_started utc parse_2025_07_07 planWithWeek27 _ Hlt).
Defined.

Lemma calendar_completed_witness :
  26 < week (getWeekAndDay utc parse_2025_07_07
               (start_2025_07_07 + 182 * msPerDay) PROGRAM_START_DATE) /\
  planWithWeek27 !! "Week 27" ≫= (fun plan => plan !! "Day 1")
    = Some (Workout "Rest" "Complete rest." []) /\
  renderTodayWorkout utc parse_2025_07_07 planWithWeek27 (start_2025_07_07 + 182 * msPerDay)
  = (CompletedOrNotStarted 27 1, []).
Proof.
  assert (26 < week (getWeekAndDay utc parse_2025_07_07
                       (start_2025_07_07 + 182 * msPerDay) PROGRAM_START_DATE)) as Hgt
    by reflexivity.
  split; [exact Hgt |]. split; [reflexivity |].
  apply (calendar_completed utc parse_2025_07_07 planWithWeek27 _ Hgt).
Defined.

Lemma saveMacros_refused_witness :
  blank_or_zero NaN /\ blank_or_zero (num 0) /\
  saveMacrosBtn_click "2025-01-01" NaN (num 0) NaN (num 0) fresh
    = (Fulfilled tt, add_event (Alert "Please enter at least one macro value.") fresh).
Proof.
  assert (blank_or_zero NaN) as Hblank by (left; reflexivity).
  assert (blank_or_zero (num 0)) as Hzero by (right; reflexivity).
  split; [exact Hblank |]. split; [exact Hzero |].
  apply (saveMacros_refused "2025-01-01" NaN (num 0) NaN (num 0) fresh
           Hblank Hzero Hblank Hzero).
Defined.

Lemma saveWeight_only_positive_witness :
  saveWeightBtn_click "2025-01-01" NaN fresh
    = (Fulfilled tt, add_event (Alert "Please enter a valid weight.") fresh) /\
  saveWeightBtn_click "2025-01-01" (num (-3)) fresh
    = (Fulfilled tt, add_event (Alert "Please enter a valid weight.") fresh) /\
  weights (snd (saveWeightBtn_click "2025-01-01" num_72_5 fresh)) !! VStr "2025-01-01"
    = Some (<["weight" := VNum num_72_5]> {["date" := VStr "2025-01-01"]}).
Proof.
  split; [| split].
  - apply (saveWeight_only_positive "2025-01-01" NaN fresh). by left.
  - apply (saveWeight_only_positive "2025-01-01" (num (-3)) fresh).
    right. eexists. split; [reflexivity |]. vm_compute. discriminate.
  - destruct (saveWeight_only_positive "2025-01-01" num_72_5 fresh) as [_ Hpos].
    destruct (Hpos (Q2Qc (145 # 2))) as [-> _]; [reflexivity | reflexivity | reflexivity |].
    apply lookup_insert_eq.
Defined.

Lemma saveMacros_read_failure_witness :
  truthy (num 2000) || truthy NaN || truthy NaN || truthy NaN = true /\
  getDailyData "2025-01-01" failing
    = (Rejected "Error getting daily data",
       World true ∅ ∅ [] [Request (ReqGet dailyDataStore (VStr "2025-01-01"))]) /\
  saveMacrosBtn_click "2025-01-01" (num 2000) NaN NaN NaN failing
    = (Fulfilled tt,
       World true ∅ ∅ []
         [Alert "Error saving macros: Error getting daily data";
          Request (ReqGet dailyDataStore (VStr "2025-01-01"))]).
Proof.
  assert (truthy (num 2000) || truthy NaN || truthy NaN || truthy NaN = true) as Hany
    by reflexivity.
  assert (getDailyData "2025-01-01" failing
          = (Rejected "Error getting daily data",
             World true ∅ ∅ [] [Request (ReqGet dailyDataStore (VStr "2025-01-01"))]))
    as Hread by reflexivity.
  split; [exact Hany |]. split; [exact Hread |].
  destruct (saveMacros_read_failure "2025-01-01" (num 2000) NaN NaN NaN
              failing _ _ Hany Hread) as [-> _].
  reflexivity.
Defined.

Lemma upsert_idempotent_witness :
  faults fresh = [] /\
  stored (snd (saveMacrosBtn_click "2025-01-01" (num 2000) (num 150) NaN (num 70)
            (snd (saveMacrosBtn_click "2025-01-01" (num 2000) (num 150) NaN (num 70) fresh))))
    = stored (snd (saveMacrosBtn_click "2025-01-01" (num 2000) (num 150) NaN (num 70) fresh)) /\
  stored (snd (saveDailyData "2025-01-01" {["steps" := VNum (num 10)]}
            (snd (saveDailyData "2025-01-01" {["steps" := VNum (num 10)]} fresh))))
    = stored (snd (saveDailyData "2025-01-01" {["steps" := VNum (num 10)]} fresh)).
Proof.
  assert (faults fresh = []) as Hok by reflexivity.
  split; [exact Hok |].
  destruct (upsert_idempotent "2025-01-01" fresh Hok) as (Hsave & Hmacros & _).
  split; [apply Hmacros | apply Hsave].
Defined.

Lemma upsert_frame_witness :
  "2025-01-01" <> "2025-01-02" /\
  dailyData (snd (saveDailyData "2025-01-02" {["steps" := VNum (num 10)]}
                (snd (saveDailyData "2025-01-01" {["water" := VNum (num 2)]} fresh))))
    !! VStr "2025-01-01"
  = Some (<["date" := VStr "2025-01-01"]> {["water" := VNum (num 2)]}) /\
  dailyData (snd (saveMacrosBtn_click "2025-01-02" (num 2000) NaN NaN NaN
                (snd (saveDailyData "2025-01-01" {["water" := VNum (num 2)]} fresh))))
    !! VStr "2025-01-01"
  = Some (<["date" := VStr "2025-01-01"]> {["water" := VNum (num 2)]}).
Proof.
  assert ("2025-01-01" <> "2025-01-02") as Hne by discriminate.
  assert (VStr "2025-01-01" <> VStr "2025-01-02") as Hkey by congruence.
  split; [exact Hne |].
  destruct (upsert_frame "2025-01-02"
              (snd (saveDailyData "2025-01-01" {["water" := VNum (num 2)]} fresh)))
    as (Hsave & Hmacros & _).
  split.
  - destruct (Hsave {["steps" := VNum (num 10)]}) as [_ Hd]; [reflexivity |].
    rewrite Hd by exact Hkey. reflexivity.
  - destruct (Hmacros (num 2000) NaN NaN NaN) as [_ Hd].
    { apply saveDailyData_keyed, keyed_empty. }
    rewrite Hd by exact Hkey. reflexivity.
Defined.

Lemma saveMacros_merges_witness :
  let w := snd (saveDailyDataBtn_click "2025-01-01" (num 10) (num 2) NaN NaN NaN NaN fresh) in
  faults w = [] /\
  exists record,
    dailyData (snd (saveMacrosBtn_click "2025-01-01" (num 2000) NaN NaN NaN w))
      !! VStr "2025-01-01" = Some record /\
    record !! "calories" = Some (VNum (num 2000)) /\
    record !! "protein" = Some (VNum (num 0)) /\
    record !! "steps" = Some (VNum (num 10)) /\
    record !! "water" = Some (VNum (num 2)).
Proof.
  cbv zeta.
  assert (faults (snd (saveDailyDataBtn_click "2025-01-01"
                         (num 10) (num 2) NaN NaN NaN NaN fresh)) = []) as Hok
    by reflexivity.
  split; [exact Hok |].
  destruct (saveMacros_merges "2025-01-01" _ Hok) as [Hmerge _].
  { apply saveDailyDataBtn_click_keyed, keyed_empty. }
  destruct (Hmerge (num 2000) NaN NaN NaN) as
    (record & Hstored & Hcalories & Hprotein & _ & _ & _ & Hrest); [reflexivity |].
  exists record. split; [exact Hstored |].
  split; [exact Hcalories |]. split; [exact Hprotein |].
  split; (rewrite Hrest by discriminate; reflexivity).
Defined.

Lemma save_steps_then_read_witness :
  faults fresh = [] /\ dailyData fresh !! VStr "2025-01-01" = None /\
  fst (getDailyData "2025-01-01"
         (snd (saveDailyDataBtn_click "2025-01-01" (num 5000) NaN NaN NaN NaN NaN fresh)))
    = Fulfilled (Some (<["date" := VStr "2025-01-01"]>
        (dailyFields (num 5000) (num 0) (num 0) (num 0) (num 0) (num 0)))).
Proof.
  assert (faults fresh = []) as Hok by reflexivity.
  assert (dailyData fresh !! VStr "2025-01-01" = None) as Hnew by reflexivity.
  split; [exact Hok |]. split; [exact Hnew |].
  apply (save_steps_then_read "2025-01-01" fresh Hok Hnew).
Defined.

(** * Further properties *)

(** ** What the persistence functions request *)

Lemma quiet_refl w : quiet 0 w w.
Proof. unfold quiet. split; [done | split; [lia | done]]. Qed.

Lemma quiet_trans n m w w1 w2 :
  quiet n w w1 -> quiet m w1 w2 -> quiet (n + m) w w2.
Proof.
  intros (Ha & Hp & Hd) (Ha' & Hp' & Hd').
  split; [congruence | split; [lia |]].
  intros Hdb. destruct (Hd Hdb) as [Hdb1 Ho]. destruct (Hd' Hdb1) as [Hdb2 Ho'].
  split; [done | congruence].
Qed.

Lemma quiet_le n m w w1 : (n <= m)%nat -> quiet n w w1 -> quiet m w w1.
Proof. intros Hle (Ha & Hp & Hd). split; [done | split; [lia | done]]. Qed.

Lemma getDailyData_quiet date w : quiet 0 w (snd (getDailyData date w)).
Proof.
  destruct w as [[] dd ws [| [] [| [] [| [] fs]]] tr]; run;
    (split; [reflexivity | split; [cbn; lia | done]]).
Qed.

Lemma getAllWeights_quiet w : quiet 0 w (snd (getAllWeights w)).
Proof.
  destruct w as [[] dd ws [| [] [| [] [| [] fs]]] tr]; run;
    (split; [reflexivity | split; [cbn; lia | done]]).
Qed.

Lemma getAllWeights_stored w : stored (snd (getAllWeights w)) = stored w.
Proof.
  destruct w as [[] dd ws [| [] [| [] [| [] fs]]] tr]; reflexivity.
Qed.

Lemma saveDailyData_quiet date data w : quiet 1 w (snd (saveDailyData date data w)).
Proof.
  unfold saveDailyData, idb_put, await at 1.
  destruct (keyOf (data ∪ {["date" := VStr date]})) as [k | ];
    destruct w as [[] dd ws [| [] [| [] [| [] fs]]] tr]; run;
    (split; [reflexivity | split; [cbn; lia | done]]).
Qed.

Lemma keyOf_sample date weight :
  keyOf (<["weight" := VNum weight]> {["date" := VStr date]}) = Some (VStr date).
Proof. reflexivity. Qed.

Lemma saveWeight_quiet date weight w : quiet 1 w (snd (saveWeight date weight w)).
Proof.
  unfold saveWeight, idb_put, await at 1. rewrite keyOf_sample.
  destruct w as [[] dd ws [| [] [| [] [| [] fs]]] tr]; run;
    (split; [reflexivity | split; [cbn; lia | done]]).
Qed.

Lemma renderDashboardData_quiet date w : quiet 0 w (snd (renderDashboardData date w)).
Proof.
  unfold renderDashboardData, await.
  pose proof (getDailyData_quiet date w) as Hq.
  by destruct (getDailyData date w) as [[r | reason] w1].
Qed.

Lemma renderWeightHistory_quiet w : quiet 0 w (snd (renderWeightHistory w)).
Proof.
  unfold renderWeightHistory, await.
  pose proof (getAllWeights_quiet w) as Hq.
  by destruct (getAllWeights w) as [[r | reason] w1].
Qed.

Lemma renderWeightHistory_stored w : stored (snd (renderWeightHistory w)) = stored w.
Proof.
  unfold renderWeightHistory, await.
  pose proof (getAllWeights_stored w) as Hs.
  by destruct (getAllWeights w) as [[r | reason] w1].
Qed.

(** How [saveDailyData] and [saveWeight] settle. *)
Lemma saveDailyData_outcome date data w :
  match saveDailyData date data w with
  | (Fulfilled _, w1) =>
      stored w1 = stored w \/
      exists k, keyOf (data ∪ {["date" := VStr date]}) = Some k /\
        dailyData w1 = <[k := data ∪ {["date" := VStr date]}]> (dailyData w) /\
        weights w1 = weights w
  | (Rejected _, w1) => stored w1 = stored w
  end.
Proof.
  unfold saveDailyData, idb_put, await at 1.
  destruct (keyOf (data ∪ {["date" := VStr date]})) as [k | ] eqn:Hk;
    destruct w as [[] dd ws [| [] [| [] [| [] fs]]] tr]; run;
    first [ reflexivity | by left | right; by exists k ].
Qed.

Lemma saveWeight_outcome date weight w :
  match saveWeight date weight w with
  | (Fulfilled _, w1) =>
      stored w1 = stored w \/
      (weights w1
         = <[VStr date := <["weight" := VNum weight]> {["date" := VStr date]}]> (weights w) /\
       dailyData w1 = dailyData w)
  | (Rejected _, w1) => stored w1 = stored w
  end.
Proof.
  unfold saveWeight, idb_put, await at 1. rewrite keyOf_sample.
  destruct w as [[] dd ws [| [] [| [] [| [] fs]]] tr]; run;
    first [ reflexivity | by left | right; by split ].
Qed.

Lemma saveDailyData_settles date (data : object) w :
  data !! "date" = None ->
  settles (saveDailyData date data w) w
    (<[VStr date := data ∪ {["date" := VStr date]}]> (dailyData w), weights w).
Proof.
  intros Hdate. unfold settles.
  pose proof (saveDailyData_outcome date data w) as Ho.
  destruct (saveDailyData date data w) as [[[] | reason] w1]; [| exact Ho].
  destruct Ho as [Hs | (k & Hk & Hd & Hw)]; [by right | left].
  rewrite keyOf_spread in Hk by done. injection Hk as <-.
  unfold stored. by rewrite Hd, Hw.
Qed.

Lemma saveWeight_settles date weight w :
  settles (saveWeight date weight w) w
    (dailyData w,
     <[VStr date := <["weight" := VNum weight]> {["date" := VStr date]}]> (weights w)).
Proof.
  unfold settles.
  pose proof (saveWeight_outcome date weight w) as Ho.
  destruct (saveWeight date weight w) as [[[] | reason] w1]; [| exact Ho].
  destruct Ho as [Hs | [Hw Hd]]; [by right | left].
  unfold stored. by rewrite Hd, Hw.
Qed.

(** X1. A save changes the stores in one way only, whatever the backend
    answers: rejected, it leaves both stores as they were; fulfilled, it
    has stored exactly its record under the date and changed nothing
    else, or has stored nothing. The last happens when the put succeeds
    and its transaction then aborts: the promise is fulfilled all the
    same. On a backend that answers every request and commits, the save
    fulfils with the record stored. *)
Theorem save_settles date w :
  (forall data : object, data !! "date" = None ->
     settles (saveDailyData date data w) w
       (<[VStr date := data ∪ {["date" := VStr date]}]> (dailyData w), weights w) /\
     (forall fs, db w = true -> faults w = false :: true :: fs ->
        fst (saveDailyData date data w) = Fulfilled tt /\
        stored (snd (saveDailyData date data w)) = stored w) /\
     (faults w = [] ->
        fst (saveDailyData date data w) = Fulfilled tt /\
        stored (snd (saveDailyData date data w))
          = (<[VStr date := data ∪ {["date" := VStr date]}]> (dailyData w), weights w))) /\
  (forall weight,
     settles (saveWeight date weight w) w
       (dailyData w,
        <[VStr date := <["weight" := VNum weight]> {["date" := VStr date]}]> (weights w)) /\
     (forall fs, db w = true -> faults w = false :: true :: fs ->
        fst (saveWeight date weight w) = Fulfilled tt /\
        stored (snd (saveWeight date weight w)) = stored w) /\
     (faults w = [] ->
        fst (saveWeight date weight w) = Fulfilled tt /\
        stored (snd (saveWeight date weight w))
          = (dailyData w,
             <[VStr date := <["weight" := VNum weight]> {["date" := VStr date]}]>
               (weights w)))).
Proof.
  split.
  - intros data Hdate. split; [by apply saveDailyData_settles |].
    unfold saveDailyData, idb_put, await at 1 3 5 7. rewrite keyOf_spread by done.
    split.
    + intros fs Hdb Hf. destruct w as [d dd ws fl tr]. cbn in Hdb, Hf. subst d fl.
      by split.
    + intros Hok. destruct w as [[] dd ws fl tr]; cbn in Hok; subst fl; by split.
  - intros weight. split; [apply saveWeight_settles |].
    unfold saveWeight, idb_put, await at 1 3 5 7. rewrite keyOf_sample.
    split.
    + intros fs Hdb Hf. destruct w as [d dd ws fl tr]. cbn in Hdb, Hf. subst d fl.
      by split.
    + intros Hok. destruct w as [[] dd ws fl tr]; cbn in Hok; subst fl; by split.
Qed.

(** X2. When [saveDailyData] has fulfilled and the next [getDailyData]
    of that date fulfils, the read returns the date with the fields
    given, or, the transaction of the put having aborted, what was stored
    under the date before the save. On a backend that answers every
    request and commits it is the record. *)
Theorem save_then_get date (data : object) w w1 r w2
    (Hdate : data !! "date" = None)
    (Hsave : saveDailyData date data w = (Fulfilled tt, w1))
    (Hget : getDailyData date w1 = (Fulfilled r, w2)) :
  (r = Some (data ∪ {["date" := VStr date]}) \/ r = dailyData w !! VStr date) /\
  (faults w = [] -> r = Some (data ∪ {["date" := VStr date]})).
Proof.
  apply getDailyData_result in Hget. subst r.
  split.
  - pose proof (saveDailyData_outcome date data w) as Ho. rewrite Hsave in Ho.
    destruct Ho as [[= -> _] | (k & Hk & -> & _)]; [by right | left].
    rewrite keyOf_spread in Hk by done. injection Hk as <-.
    apply lookup_insert_eq.
  - intros Hok. pose proof (saveDailyData_replaces date data w Hok Hdate) as Hr.
    by rewrite Hsave in Hr.
Qed.

(** X3. The persistence functions show no alert and never reopen a
    database that is open. The two reads and the two rendering functions
    leave both stores as they were and issue no put; a save issues at
    most one. *)
Theorem persistence_requests date data weight w :
  (stored (snd (getDailyData date w)) = stored w /\
   quiet 0 w (snd (getDailyData date w))) /\
  (stored (snd (getAllWeights w)) = stored w /\
   quiet 0 w (snd (getAllWeights w))) /\
  (stored (snd (renderDashboardData date w)) = stored w /\
   quiet 0 w (snd (renderDashboardData date w))) /\
  (stored (snd (renderWeightHistory w)) = stored w /\
   quiet 0 w (snd (renderWeightHistory w))) /\
  quiet 1 w (snd (saveDailyData date data w)) /\
  quiet 1 w (snd (saveWeight date weight w)).
Proof.
  split; [split; [apply getDailyData_stored | apply getDailyData_quiet] |].
  split; [split; [apply getAllWeights_stored | apply getAllWeights_quiet] |].
  split; [split; [apply renderDashboardData_stored | apply renderDashboardData_quiet] |].
  split; [split; [apply renderWeightHistory_stored | apply renderWeightHistory_quiet] |].
  split; [apply saveDailyData_quiet | apply saveWeight_quiet].
Qed.

Lemma getAllWeights_result w l w1 :
  getAllWeights w = (Fulfilled l, w1) -> l = snd <$> map_to_list (weights w).
Proof.
  destruct w as [[] dd ws [| [] [| [] [| [] fs]]] tr]; run; congruence.
Qed.

(** X4. When [getAllWeights] fulfils, its list holds the stored samples
    and only them, one entry for each key of the store. *)
Theorem getAllWeights_lists_the_store w l w1
    (Hall : getAllWeights w = (Fulfilled l, w1)) :
  (forall record, record ∈ l <-> exists k, weights w !! k = Some record) /\
  length l = size (weights w).
Proof.
  apply getAllWeights_result in Hall. subst l. split.
  - intros record. rewrite list_elem_of_fmap. split.
    + intros ([k r] & -> & Hin). exists k. by apply elem_of_map_to_list.
    + intros (k & Hk). exists (k, record). split; [done |].
      by apply elem_of_map_to_list.
  - by rewrite length_fmap, length_map_to_list.
Qed.

(** X5. With no database handle yet and an open request that fails,
    each persistence function rejects with 'Database error' after that
    one request: nothing is read or written and the handle stays unset. *)
Theorem open_failure_stops date data weight w fs
    (Hdb : db w = false) (Hfail : faults w = true :: fs) :
  saveDailyData date data w
    = (Rejected "Database error", set_faults fs (add_event (Request ReqOpen) w)) /\
  getDailyData date w
    = (Rejected "Database error", set_faults fs (add_event (Request ReqOpen) w)) /\
  saveWeight date weight w
    = (Rejected "Database error", set_faults fs (add_event (Request ReqOpen) w)) /\
  getAllWeights w
    = (Rejected "Database error", set_faults fs (add_event (Request ReqOpen) w)).
Proof.
  destruct w as [d dd ws fl tr]. cbn in Hdb, Hfail. subst d fl.
  repeat split.
Qed.

(** ** How a click ends *)

Lemma clicked_alert msg n w w1 :
  (n <= 1)%nat -> quiet n w w1 -> clicked msg w (add_event (Alert msg) w1).
Proof.
  intros Hn (Ha & Hp & Hd). split; [by rewrite <- Ha | split; [| exact Hd]].
  change (putsOf (trace (add_event (Alert msg) w1))) with (putsOf (trace w1)). lia.
Qed.

Lemma clicked_quiet msg w w1 w2 :
  clicked msg w w1 -> quiet 0 w1 w2 -> clicked msg w w2.
Proof.
  intros (Ha & Hp & Hd) (Ha' & Hp' & Hd').
  split; [congruence | split; [lia |]].
  intros Hdb. destruct (Hd Hdb) as [Hdb1 Ho]. destruct (Hd' Hdb1) as [Hdb2 Ho'].
  split; [done | congruence].
Qed.

(** The shape shared by the dashboard and the weight handler: save,
    alert, render, with the rejection of the save caught. *)
Lemma try_save_outcome (save render : async unit) ok err w :
  quiet 1 w (snd (save w)) ->
  (forall w1, quiet 0 w1 (snd (render w1))) ->
  (forall w1, stored (snd (render w1)) = stored w1) ->
  fst (try_catch (save ;; alert ok ;; detach render)
         (fun error => alert (err +:+ error)) w) = Fulfilled tt /\
  match save w with
  | (Fulfilled _, w1) =>
      clicked ok w
        (snd (try_catch (save ;; alert ok ;; detach render)
                (fun error => alert (err +:+ error)) w)) /\
      stored (snd (try_catch (save ;; alert ok ;; detach render)
                     (fun error => alert (err +:+ error)) w)) = stored w1
  | (Rejected reason, w1) =>
      clicked (err +:+ reason) w
        (snd (try_catch (save ;; alert ok ;; detach render)
                (fun error => alert (err +:+ error)) w)) /\
      stored (snd (try_catch (save ;; alert ok ;; detach render)
                     (fun error => alert (err +:+ error)) w)) = stored w1
  end.
Proof.
  intros Hsave Hrender Hstored.
  unfold try_catch, await at 1 3 5 7 9.
  destruct (save w) as [[[] | reason] w1]; cbn in Hsave |- *.
  - split; [reflexivity |]. split.
    + eapply clicked_quiet; [by eapply clicked_alert | apply Hrender].
    + by rewrite Hstored.
  - split; [reflexivity |]. split; [by eapply clicked_alert | reflexivity].
Qed.

Lemma saveDailyDataBtn_click_outcome today s wa c p cb f w :
  (clicked "Daily data saved!" w (snd (saveDailyDataBtn_click today s wa c p cb f w)) /\
   (stored (snd (saveDailyDataBtn_click today s wa c p cb f w))
      = (<[VStr today := dailyFields (or0 s) (or0 wa) (or0 c) (or0 p) (or0 cb) (or0 f)
                           ∪ {["date" := VStr today]}]> (dailyData w), weights w) \/
    stored (snd (saveDailyDataBtn_click today s wa c p cb f w)) = stored w)) \/
  (exists reason,
     clicked ("Error saving daily data: " +:+ reason) w
       (snd (saveDailyDataBtn_click today s wa c p cb f w)) /\
     stored (snd (saveDailyDataBtn_click today s wa c p cb f w)) = stored w).
Proof.
  unfold saveDailyDataBtn_click. cbv zeta.
  set (data := dailyFields (or0 s) (or0 wa) (or0 c) (or0 p) (or0 cb) (or0 f)).
  destruct (try_save_outcome (saveDailyData today data) (renderDashboardData today)
              "Daily data saved!" "Error saving daily data: " w) as [_ Hcase].
  { apply saveDailyData_quiet. }
  { intros w1. apply renderDashboardData_quiet. }
  { intros w1. apply renderDashboardData_stored. }
  pose proof (saveDailyData_settles today data w (dailyFields_date _ _ _ _ _ _)) as Ho.
  unfold settles in Ho.
  destruct (saveDailyData today data w) as [[[] | reason] w1].
  - left. destruct Hcase as [Hc ->]. by split.
  - right. exists reason. destruct Hcase as [Hc ->]. by split.
Qed.

Lemma saveWeightBtn_click_outcome today x w :
  (gt0 x = true /\
   clicked "Weight saved!" w (snd (saveWeightBtn_click today x w)) /\
   (stored (snd (saveWeightBtn_click today x w))
      = (dailyData w,
         <[VStr today := <["weight" := VNum x]> {["date" := VStr today]}]> (weights w)) \/
    stored (snd (saveWeightBtn_click today x w)) = stored w)) \/
  (gt0 x = false /\
   clicked "Please enter a valid weight." w (snd (saveWeightBtn_click today x w)) /\
   stored (snd (saveWeightBtn_click today x w)) = stored w) \/
  (exists reason,
     clicked ("Error saving weight: " +:+ reason) w (snd (saveWeightBtn_click today x w)) /\
     stored (snd (saveWeightBtn_click today x w)) = stored w).
Proof.
  unfold saveWeightBtn_click. cbv zeta.
  destruct (gt0 x) eqn:Hx.
  - destruct (try_save_outcome (saveWeight today x) renderWeightHistory
                "Weight saved!" "Error saving weight: " w) as [_ Hcase].
    { apply saveWeight_quiet. }
    { intros w1. apply renderWeightHistory_quiet. }
    { intros w1. apply renderWeightHistory_stored. }
    pose proof (saveWeight_settles today x w) as Ho. unfold settles in Ho.
    destruct (saveWeight today x w) as [[[] | reason] w1].
    + left. destruct Hcase as [Hc ->]. by split.
    + right. right. exists reason. destruct Hcase as [Hc ->]. by split.
  - right. left. split; [done |]. split; [| reflexivity].
    apply (clicked_alert _ 0); [lia | apply quiet_refl].
Qed.

Lemma saveMacrosBtn_click_run today c p cb f w :
  truthy c || truthy p || truthy cb || truthy f = true ->
  saveMacrosBtn_click today c p cb f w
    = match getDailyData today w with
      | (Fulfilled r, w1) =>
          match saveDailyData today
                  (withMacros (default ∅ r) (or0 c) (or0 p) (or0 cb) (or0 f)) w1 with
          | (Fulfilled _, w2) =>
              (Fulfilled tt,
               snd (renderDashboardData today (add_event (Alert "Macros saved!") w2)))
          | (Rejected reason, w2) =>
              (Fulfilled tt, add_event (Alert ("Error saving macros: " +:+ reason)) w2)
          end
      | (Rejected reason, w1) =>
          (Fulfilled tt, add_event (Alert ("Error saving macros: " +:+ reason)) w1)
      end.
Proof.
  intros Hany. unfold saveMacrosBtn_click. rewrite !truthy_or0, Hany.
  unfold try_catch, await at 1.
  destruct (getDailyData today w) as [[r | reason] w1]; [| reflexivity].
  unfold await at 1.
  by destruct (saveDailyData today _ w1) as [[[] | reason] w2].
Qed.

Lemma saveMacrosBtn_click_outcome today c p cb f w :
  keyed (dailyData w) ->
  (clicked "Macros saved!" w (snd (saveMacrosBtn_click today c p cb f w)) /\
   (stored (snd (saveMacrosBtn_click today c p cb f w))
      = (<[VStr today :=
             withMacros (default ∅ (dailyData w !! VStr today))
               (or0 c) (or0 p) (or0 cb) (or0 f) ∪ {["date" := VStr today]}]>
           (dailyData w), weights w) \/
    stored (snd (saveMacrosBtn_click today c p cb f w)) = stored w)) \/
  (clicked "Please enter at least one macro value." w
     (snd (saveMacrosBtn_click today c p cb f w)) /\
   stored (snd (saveMacrosBtn_click today c p cb f w)) = stored w) \/
  (exists reason,
     clicked ("Error saving macros: " +:+ reason) w
       (snd (saveMacrosBtn_click today c p cb f w)) /\
     stored (snd (saveMacrosBtn_click today c p cb f w)) = stored w).
Proof.
  intros Hkeyed.
  destruct (truthy c || truthy p || truthy cb || truthy f) eqn:Hany.
  - rewrite (saveMacrosBtn_click_run today c p cb f w Hany).
    pose proof (getDailyData_quiet today w) as Hq.
    pose proof (getDailyData_stored today w) as Hs.
    destruct (getDailyData today w) as [[r | reason] w1] eqn:Hread; cbn in Hq, Hs.
    + apply getDailyData_result in Hread. subst r.
      set (data := withMacros (default ∅ (dailyData w !! VStr today))
                     (or0 c) (or0 p) (or0 cb) (or0 f)).
      pose proof (saveDailyData_quiet today data w1) as Hq1.
      pose proof (saveDailyData_outcome today data w1) as Ho.
      destruct (saveDailyData today data w1) as [[[] | reason] w2]; cbn in Hq1 |- *.
      * left. split.
        -- eapply clicked_quiet; [| apply renderDashboardData_quiet].
           apply (clicked_alert _ (0 + 1)); [lia |]. by eapply quiet_trans.
        -- rewrite renderDashboardData_stored.
           change (stored (add_event (Alert "Macros saved!") w2)) with (stored w2).
           destruct Ho as [Hs2 | (k & Hk & Hd2 & Hw2)]; [right; congruence | left].
           injection Hs as Hd Hw.
           unfold data in Hk. rewrite <- Hd in Hkeyed.
           rewrite <- Hd in Hk at 1.
           rewrite (merged_key today w1) in Hk by done.
           injection Hk as <-.
           unfold stored. rewrite Hd2, Hw2, Hw. unfold data. by rewrite Hd.
      * right. right. exists reason. split.
        -- apply (clicked_alert _ (0 + 1)); [lia |]. by eapply quiet_trans.
        -- change (stored (add_event (Alert ("Error saving macros: " +:+ reason)) w2))
             with (stored w2). congruence.
    + right. right. exists reason. split.
      * apply (clicked_alert _ 0); [lia | exact Hq].
      * exact Hs.
  - unfold saveMacrosBtn_click. rewrite !truthy_or0, Hany.
    right. left. split; [| reflexivity].
    apply (clicked_alert _ 0); [lia | apply quiet_refl].
Qed.


(** ** Weights and dates *)

Lemma saveWeightBtn_click_ok today x w :
  faults w = [] -> gt0 x = true ->
  stored (snd (saveWeightBtn_click today x w))
    = (dailyData w,
       <[VStr today := <["weight" := VNum x]> {["date" := VStr today]}]> (weights w)) /\
  faults (snd (saveWeightBtn_click today x w)) = [].
Proof.
  intros Hok Hx. unfold saveWeightBtn_click. cbv zeta. rewrite Hx.
  destruct w as [[] dd ws fs tr]; cbn in Hok; subst fs; split; reflexivity.
Qed.

(** X7. A second weight saved for the same date takes the place of the
    first: on a backend that answers every request the stores end as if
    only the second had been saved, so a date never has two samples. *)
Theorem saveWeight_last_wins today x y w
    (Hok : faults w = []) (Hx : gt0 x = true) (Hy : gt0 y = true) :
  stored (snd (saveWeightBtn_click today y (snd (saveWeightBtn_click today x w))))
    = stored (snd (saveWeightBtn_click today y w)).
Proof.
  destruct (saveWeightBtn_click_ok today x w Hok Hx) as [Hs1 Hok1].
  destruct (saveWeightBtn_click_ok today y _ Hok1 Hy) as [Hs2 _].
  destruct (saveWeightBtn_click_ok today y w Hok Hy) as [Hs3 _].
  rewrite Hs2, Hs3. injection Hs1 as -> ->.
  by rewrite insert_insert_eq.
Qed.

(** X8. Saves for two different dates do not depend on their order: on
    a backend that answers every request both orders leave the same
    stores. *)
Theorem saves_commute d1 d2 (f1 f2 : object) w
    (Hne : d1 <> d2)
    (H1 : f1 !! "date" = None) (H2 : f2 !! "date" = None)
    (Hok : faults w = []) :
  stored (snd (saveDailyData d2 f2 (snd (saveDailyData d1 f1 w))))
    = stored (snd (saveDailyData d1 f1 (snd (saveDailyData d2 f2 w)))).
Proof.
  destruct (saveDailyData_ok d1 f1 w Hok) as [Hs1 Hok1].
  destruct (saveDailyData_ok d2 f2 w Hok) as [Hs2 Hok2].
  destruct (saveDailyData_ok d2 f2 _ Hok1) as [Hs12 _].
  destruct (saveDailyData_ok d1 f1 _ Hok2) as [Hs21 _].
  rewrite keyOf_spread in Hs1, Hs2, Hs12, Hs21 by done.
  rewrite Hs12, Hs21.
  injection Hs1 as -> ->. injection Hs2 as -> ->.
  f_equal. apply insert_insert_ne. congruence.
Qed.

(** ** What the stores hold after any clicks *)

Lemma or0_not_NaN x : or0 x <> NaN.
Proof.
  unfold or0. destruct (truthy x) eqn:Hx; [| discriminate].
  intros ->. discriminate.
Qed.

Lemma noNaN_dailyFields today s wa c p cb f :
  noNaN (dailyFields (or0 s) (or0 wa) (or0 c) (or0 p) (or0 cb) (or0 f)
           ∪ {["date" := VStr today]}).
Proof.
  intros name Hname. apply lookup_union_Some_raw in Hname.
  unfold dailyFields in Hname.
  rewrite !lookup_insert_Some, !lookup_singleton_Some in Hname.
  repeat match goal with
         | H : _ \/ _ |- _ => destruct H
         | H : _ /\ _ |- _ => destruct H
         end; simplify_eq;
    match goal with H : or0 _ = NaN |- _ => by apply or0_not_NaN in H end.
Qed.

Lemma noNaN_withMacros (e : object) today c p cb f :
  noNaN e ->
  noNaN (withMacros e (or0 c) (or0 p) (or0 cb) (or0 f) ∪ {["date" := VStr today]}).
Proof.
  intros He name Hname. apply lookup_union_Some_raw in Hname.
  unfold withMacros in Hname.
  rewrite !lookup_insert_Some, !lookup_singleton_Some in Hname.
  repeat match goal with
         | H : _ \/ _ |- _ => destruct H
         | H : _ /\ _ |- _ => destruct H
         end; simplify_eq;
    first [ by eapply He
          | match goal with H : or0 _ = NaN |- _ => by apply or0_not_NaN in H end ].
Qed.

Lemma tidy_stored w w1 : stored w1 = stored w -> tidy w -> tidy w1.
Proof.
  intros [= Hd Hw] [Hdaily Hweights]. split; intros k r; rewrite ?Hd, ?Hw; auto.
Qed.

Lemma tidy_daily w w1 today (record : object) :
  tidy w ->
  stored w1 = (<[VStr today := record]> (dailyData w), weights w) ->
  record !! "date" = Some (VStr today) -> noNaN record ->
  tidy w1.
Proof.
  intros [Hdaily Hweights] [= Hd Hw] Hdate Hnan.
  split; intros k r; rewrite ?Hd, ?Hw; [| by auto].
  rewrite lookup_insert_Some. intros [[<- <-] | [_ Hk]]; [| by auto].
  split; [done | split; [by exists today | done]].
Qed.

Lemma tidy_weight w w1 today x :
  tidy w -> gt0 x = true ->
  stored w1
    = (dailyData w,
       <[VStr today := <["weight" := VNum x]> {["date" := VStr today]}]> (weights w)) ->
  tidy w1.
Proof.
  intros [Hdaily Hweights] Hx [= Hd Hw].
  split; intros k r; rewrite ?Hd, ?Hw; [by auto |].
  rewrite lookup_insert_Some. intros [[<- <-] | [_ Hk]]; [| by auto].
  destruct x as [| q]; [discriminate |].
  exists today, q. split; [done | split; [by apply gt0_Num | done]].
Qed.

Lemma tidy_keyed w : tidy w -> keyed (dailyData w).
Proof. intros [Hdaily _] k r Hk. by apply Hdaily. Qed.

Lemma handle_tidy c w : tidy w -> tidy (snd (handle c w)).
Proof.
  intros Ht. destruct c as [today s wa c p cb f | today x | today c p cb f]; cbn.
  - destruct (saveDailyDataBtn_click_outcome today s wa c p cb f w)
      as [[_ [Hs | Hs]] | (reason & _ & Hs)].
    + eapply tidy_daily; [done | exact Hs | | apply noNaN_dailyFields].
      apply keyOf_date, keyOf_spread, dailyFields_date.
    + by eapply tidy_stored.
    + by eapply tidy_stored.
  - destruct (saveWeightBtn_click_outcome today x w)
      as [(Hx & _ & [Hs | Hs]) | [(_ & _ & Hs) | (reason & _ & Hs)]].
    + by eapply tidy_weight.
    + by eapply tidy_stored.
    + by eapply tidy_stored.
    + by eapply tidy_stored.
  - destruct (saveMacrosBtn_click_outcome today c p cb f w (tidy_keyed w Ht))
      as [[_ [Hs | Hs]] | [[_ Hs] | (reason & _ & Hs)]].
    + eapply tidy_daily; [done | exact Hs | |].
      * apply keyOf_date, merged_key. by apply tidy_keyed.
      * apply noNaN_withMacros.
        destruct (dailyData w !! VStr today) as [e | ] eqn:He; cbn.
        -- destruct Ht as [Hdaily _]. by apply (Hdaily _ _ He).
        -- intros name. by rewrite lookup_empty.
    + by eapply tidy_stored.
    + by eapply tidy_stored.
    + by eapply tidy_stored.
Qed.

Lemma tidy_empty d fs tr : tidy (World d ∅ ∅ fs tr).
Proof. split; intros k r Hk; cbn in Hk; by rewrite lookup_empty in Hk. Qed.

(** X9. Whatever is clicked, with whatever inputs and whatever the
    backend answers, the stores stay in order: every daily record sits
    under its own date and holds no NaN, and every weight record is the
    date it sits under with a weight above 0. *)
Theorem session_keeps_tidy cs w (Htidy : tidy w) : tidy (session cs w).
Proof.
  revert w Htidy. induction cs as [| c cs IH]; intros w Htidy; cbn.
  - exact Htidy.
  - apply IH. by apply handle_tidy.
Qed.

Lemma saveMacrosBtn_click_clicked today c p cb f w :
  exists msg, clicked msg w (snd (saveMacrosBtn_click today c p cb f w)).
Proof.
  destruct (truthy c || truthy p || truthy cb || truthy f) eqn:Hany.
  - rewrite (saveMacrosBtn_click_run today c p cb f w Hany).
    pose proof (getDailyData_quiet today w) as Hq.
    destruct (getDailyData today w) as [[r | reason] w1]; cbn in Hq.
    + pose proof (saveDailyData_quiet today
                    (withMacros (default ∅ r) (or0 c) (or0 p) (or0 cb) (or0 f)) w1) as Hq1.
      destruct (saveDailyData today _ w1) as [[[] | reason] w2]; cbn in Hq1 |- *;
        eexists.
      * eapply clicked_quiet; [| apply renderDashboardData_quiet].
        apply (clicked_alert _ (0 + 1)); [lia |]. by eapply quiet_trans.
      * apply (clicked_alert _ (0 + 1)); [lia |]. by eapply quiet_trans.
    + eexists. apply (clicked_alert _ 0); [lia | exact Hq].
  - unfold saveMacrosBtn_click. rewrite !truthy_or0, Hany.
    eexists. apply (clicked_alert _ 0); [lia | apply quiet_refl].
Qed.

Lemma handle_clicked c w : exists msg, clicked msg w (snd (handle c w)).
Proof.
  destruct c as [today s wa c p cb f | today x | today c p cb f]; cbn.
  - destruct (saveDailyDataBtn_click_outcome today s wa c p cb f w)
      as [[Hc _] | (reason & Hc & _)]; eauto.
  - destruct (saveWeightBtn_click_outcome today x w)
      as [(_ & Hc & _) | [(_ & Hc & _) | (reason & Hc & _)]]; eauto.
  - apply saveMacrosBtn_click_clicked.
Qed.

(** X10. Over any clicks, whatever the backend answers: one alert is
    shown for each click, no more put requests are issued than there were
    clicks, and a database that is open stays open and is never opened
    again. *)
Theorem session_requests cs w :
  length (alertsOf (trace (session cs w)))
    = (length cs + length (alertsOf (trace w)))%nat /\
  (putsOf (trace (session cs w)) <= putsOf (trace w) + length cs)%nat /\
  (db w = true ->
     db (session cs w) = true /\
     opensOf (trace (session cs w)) = opensOf (trace w)).
Proof.
  revert w. induction cs as [| c cs IH]; intros w; cbn [session length].
  - split; [reflexivity | split; [lia | done]].
  - destruct (handle_clicked c w) as (msg & Ha & Hp & Hd).
    destruct (IH (snd (handle c w))) as (IHa & IHp & IHd).
    split; [rewrite IHa, Ha; cbn; lia | split; [lia |]].
    intros Hdb. destruct (Hd Hdb) as [Hdb1 Ho]. destruct (IHd Hdb1) as [Hdb2 Ho2].
    split; [done | congruence].
Qed.

(** ** What the dashboard shows after a save *)

Lemma orElse_or0_display x : orElse (Some (VNum (or0 x))) (VNum (num 0)) = VNum (or0 x).
Proof.
  unfold orElse, truthyValue. rewrite truthy_or0.
  destruct (truthy x) eqn:Hx; [reflexivity |]. unfold or0. by rewrite Hx.
Qed.

Lemma orElse_or0_input x :
  orElse (Some (VNum (or0 x))) (VStr "") = if truthy x then VNum x else VStr "".
Proof.
  unfold orElse, truthyValue. rewrite truthy_or0.
  destruct (truthy x) eqn:Hx; [| reflexivity]. unfold or0. by rewrite Hx.
Qed.

Ltac read_fields :=
  repeat first [ rewrite lookup_insert_eq
               | rewrite lookup_insert_ne by done
               | rewrite lookup_singleton_eq
               | rewrite lookup_empty ].

(** X11. On a backend that answers every request, what the dashboard
    shows for the record read back after a dashboard save is each input
    as entered, with 0 for a blank, non-numeric or zero one, and the
    inputs are filled again with the entered numbers, blank for those.
    After a macros save for a date with nothing stored, steps and water
    show 0 and their inputs stay blank, although the record has no such
    properties. *)
Theorem dashboard_shows_saved today w (Hok : faults w = []) :
  (forall s wa c p cb f r,
     fst (getDailyData today (snd (saveDailyDataBtn_click today s wa c p cb f w)))
       = Fulfilled r ->
     dashboardOf r
       = DashboardView
           (VNum (or0 s)) (VNum (or0 wa)) (VNum (or0 c))
           (VNum (or0 p)) (VNum (or0 cb)) (VNum (or0 f))
           (if truthy s then VNum s else VStr "")
           (if truthy wa then VNum wa else VStr "")
           (if truthy c then VNum c else VStr "")
           (if truthy p then VNum p else VStr "")
           (if truthy cb then VNum cb else VStr "")
           (if truthy f then VNum f else VStr "")) /\
  (forall c p cb f r,
     dailyData w !! VStr today = None ->
     truthy c || truthy p || truthy cb || truthy f = true ->
     fst (getDailyData today (snd (saveMacrosBtn_click today c p cb f w)))
       = Fulfilled r ->
     dashboardOf r
       = DashboardView
           (VNum (num 0)) (VNum (num 0)) (VNum (or0 c))
           (VNum (or0 p)) (VNum (or0 cb)) (VNum (or0 f))
           (VStr "") (VStr "")
           (if truthy c then VNum c else VStr "")
           (if truthy p then VNum p else VStr "")
           (if truthy cb then VNum cb else VStr "")
           (if truthy f then VNum f else VStr "")).
Proof.
  split.
  - intros s wa c p cb f r Hread.
    destruct (getDailyData_ok today
                (snd (saveDailyDataBtn_click today s wa c p cb f w))) as (Hr & _).
    { by apply saveDailyDataBtn_click_ok. }
    rewrite Hr in Hread. injection Hread as <-.
    rewrite saveDailyDataBtn_click_replaces by done.
    rewrite <- insert_union_singleton_r by apply dailyFields_date.
    unfold dashboardOf, dailyFields.
    read_fields.
    by rewrite !orElse_or0_display, !orElse_or0_input.
  - intros c p cb f r Hnew Hany Hread.
    destruct (saveMacrosBtn_click_ok today c p cb f w Hok Hany) as [Hs Hok1].
    destruct (getDailyData_ok today _ Hok1) as (Hr & _).
    rewrite Hr in Hread. injection Hread as <-.
    cbv zeta in Hs. rewrite Hnew in Hs. cbn [default] in Hs.
    rewrite keyOf_spread in Hs by by rewrite withMacros_date.
    injection Hs as -> _. rewrite lookup_insert_eq.
    rewrite <- insert_union_singleton_r by by rewrite withMacros_date.
    unfold dashboardOf, withMacros.
    read_fields.
    by rewrite !orElse_or0_display, !orElse_or0_input.
Qed.

(** ** More on the calendar *)

Section CalendarMore.

Variable LocalTZA : Z -> bool -> Z.
Variable Date_parse : string -> Z.
Variable WORKOUT_PLAN : gmap string (gmap string workout).

Lemma getWeekAndDay_week_0 now startDateStr :
  week (getWeekAndDay LocalTZA Date_parse now startDateStr) = 0 <->
  setHours0 LocalTZA now < setHours0 LocalTZA (Date_parse startDateStr).
Proof.
  split.
  - intros Hweek.
    destruct (Z.lt_ge_cases (setHours0 LocalTZA now)
                (setHours0 LocalTZA (Date_parse startDateStr))) as [Hlt | Hle]; [done |].
    rewrite (getWeekAndDay_from _ _ _ _ Hle) in Hweek. cbn in Hweek.
    pose proof (Math_ceil_div_nonneg
                  (setHours0 LocalTZA now - setHours0 LocalTZA (Date_parse startDateStr))
                  msPerDay eq_refl ltac:(lia)) as Hnonneg.
    pose proof (Z.div_pos _ 7 Hnonneg eq_refl). lia.
  - intros Hlt. by rewrite (getWeekAndDay_before _ _ _ _ Hlt).
Qed.

(** X12. Week 0 is returned before the start date and only then. From
    the start date on, the week is at least 1, the day is between 1 and
    7, and the two together count the days since the start:
    [(week - 1) * 7 + (day - 1)] is the elapsed time in days, rounded
    up, which is the number of days [renderWeeklySchedule] adds to the
    start date for the row of today. *)
Theorem coordinate_counts_days now startDateStr :
  (week (getWeekAndDay LocalTZA Date_parse now startDateStr) = 0 <->
   setHours0 LocalTZA now < setHours0 LocalTZA (Date_parse startDateStr)) /\
  (setHours0 LocalTZA (Date_parse startDateStr) <= setHours0 LocalTZA now ->
   1 <= week (getWeekAndDay LocalTZA Date_parse now startDateStr) /\
   1 <= day (getWeekAndDay LocalTZA Date_parse now startDateStr) <= 7 /\
   exists diffDays,
     (diffDays - 1) * msPerDay
       < setHours0 LocalTZA now - setHours0 LocalTZA (Date_parse startDateStr)
       <= diffDays * msPerDay /\
     (week (getWeekAndDay LocalTZA Date_parse now startDateStr) - 1) * 7
       + (day (getWeekAndDay LocalTZA Date_parse now startDateStr) - 1) = diffDays).
Proof.
  split; [apply getWeekAndDay_week_0 |].
  intros Hle. rewrite (getWeekAndDay_from _ _ _ _ Hle). cbn.
  set (diffDays := Math_ceil_div _ _).
  assert (0 <= diffDays) as Hnonneg
    by (apply Math_ceil_div_nonneg; [reflexivity | lia]).
  pose proof (Z.div_pos _ 7 Hnonneg eq_refl).
  pose proof (Z.mod_pos_bound diffDays 7 eq_refl).
  split; [lia |]. split; [lia |].
  exists diffDays. split; [apply Math_ceil_div_spec; reflexivity |].
  pose proof (Z.div_mod diffDays 7). lia.
Qed.

(** X13. The plan is consulted for exactly the first 182 days: the
    program is shown as completed or not started, with no key of the plan
    read, exactly when today is before the start date or more than 181
    days of elapsed time after it. *)
Theorem program_window now :
  renderTodayWorkout LocalTZA Date_parse WORKOUT_PLAN now
    = (CompletedOrNotStarted
         (week (getWeekAndDay LocalTZA Date_parse now PROGRAM_START_DATE))
         (day (getWeekAndDay LocalTZA Date_parse now PROGRAM_START_DATE)), []) <->
  setHours0 LocalTZA now < setHours0 LocalTZA (Date_parse PROGRAM_START_DATE) \/
  181 * msPerDay
    < setHours0 LocalTZA now - setHours0 LocalTZA (Date_parse PROGRAM_START_DATE).
Proof.
  pose proof (getWeekAndDay_week_0 now PROGRAM_START_DATE) as Hzero.
  unfold renderTodayWorkout. cbv zeta.
  set (c := getWeekAndDay LocalTZA Date_parse now PROGRAM_START_DATE) in *.
  destruct (Z.lt_ge_cases (setHours0 LocalTZA now)
              (setHours0 LocalTZA (Date_parse PROGRAM_START_DATE))) as [Hlt | Hle].
  - assert (week c = 0) as Hw by by apply Hzero.
    rewrite Hw. cbn. split; [by left | done].
  - assert (week c <> 0) as Hw by (rewrite Hzero; lia).
    assert (26 < week c <->
            181 * msPerDay
              < setHours0 LocalTZA now - setHours0 LocalTZA (Date_parse PROGRAM_START_DATE))
      as Hlate.
    { unfold c. rewrite (getWeekAndDay_from _ _ _ _ Hle). cbn.
      set (elapsed := setHours0 LocalTZA now
                      - setHours0 LocalTZA (Date_parse PROGRAM_START_DATE)).
      pose proof (Math_ceil_div_spec elapsed msPerDay eq_refl) as Hceil.
      pose proof (Z.div_mod (Math_ceil_div elapsed msPerDay) 7).
      pose proof (Z.mod_pos_bound (Math_ceil_div elapsed msPerDay) 7 eq_refl).
      unfold msPerDay in *. lia. }
    destruct (Z.gtb_spec (week c) 26) as [Hgt | Hngt].
    + cbn. split; [intros _; right; by apply Hlate | done].
    + destruct (Z.eqb_spec (week c) 0) as [Heq | _]; [done |]. cbn.
      split.
      * intros Heq.
        destruct (WORKOUT_PLAN !! ("Week " +:+ pretty (week c))) as [plan | ];
          [destruct (plan !! ("Day " +:+ pretty (day c))) |]; discriminate.
      * intros [Hlt | Hl]; [lia | apply Hlate in Hl; lia].
Qed.

(** X14. On a host with a fixed offset from UTC, with the start date
    read as a UTC midnight, the coordinate is a matter of calendar days
    only: with [n] the local day of now and [k] the day of the start
    date, the days counted are [n - k], and one more on a host behind
    UTC, where the start date normalises to the local day before. *)
Theorem fixed_offset_calendar offset k now startDateStr
    (Hfixed : forall t isUTC, LocalTZA t isUTC = offset)
    (Hoffset : - msPerDay < offset < msPerDay)
    (Hstart : Date_parse startDateStr = k * msPerDay) :
  let n := (now + offset) / msPerDay in
  let diffDays := n - k + (if offset <? 0 then 1 else 0) in
  getWeekAndDay LocalTZA Date_parse now startDateStr
    = if diffDays <? 0 then Coordinate 0 0 (Some "Program hasn't started yet!")
      else Coordinate (diffDays / 7 + 1) (diffDays mod 7 + 1) None.
Proof.
  cbv zeta.
  assert (setHours0 LocalTZA now = (now + offset) / msPerDay * msPerDay - offset) as Hnow
    by (unfold setHours0; by rewrite !Hfixed).
  assert (setHours0 LocalTZA (Date_parse startDateStr)
          = (k - (if offset <? 0 then 1 else 0)) * msPerDay - offset) as Hs.
  { unfold setHours0. rewrite !Hfixed, Hstart.
    rewrite Z.div_add_l by discriminate.
    destruct (Z.ltb_spec offset 0).
    - replace (offset / msPerDay) with (-1); [ring |].
      apply Z.div_unique with (r := offset + msPerDay); unfold msPerDay in *; lia.
    - rewrite Z.div_small by (unfold msPerDay in *; lia). ring. }
  set (n := (now + offset) / msPerDay) in *.
  set (shift := if offset <? 0 then 1 else 0) in *.
  destruct (Z.ltb_spec (n - k + shift) 0) as [Hneg | Hnonneg].
  - apply getWeekAndDay_before. rewrite Hnow, Hs. unfold msPerDay. lia.
  - rewrite getWeekAndDay_from by (rewrite Hnow, Hs; unfold msPerDay; lia).
    rewrite Hnow, Hs.
    replace (n * msPerDay - offset - ((k - shift) * msPerDay - offset))
      with ((n - k + shift) * msPerDay) by ring.
    by rewrite Math_ceil_div_mul.
Qed.

End CalendarMore.

Section ScheduleFacts.

Variable LocalTZA : Z -> bool -> Z.
Variable Date_parse : string -> Z.
Variable WORKOUT_PLAN : gmap string (gmap string workout).

Lemma day_in_week now startDateStr :
  week (getWeekAndDay LocalTZA Date_parse now startDateStr) <> 0 ->
  1 <= day (getWeekAndDay LocalTZA Date_parse now startDateStr) <= 7.
Proof.
  intros Hweek.
  assert (setHours0 LocalTZA (Date_parse startDateStr) <= setHours0 LocalTZA now) as Hle.
  { destruct (Z.lt_ge_cases (setHours0 LocalTZA now)
                (setHours0 LocalTZA (Date_parse startDateStr))) as [Hlt | Hle]; [| done].
    by rewrite (getWeekAndDay_before _ _ _ _ Hlt) in Hweek. }
  rewrite (getWeekAndDay_from _ _ _ _ Hle). cbn.
  pose proof (Z.mod_pos_bound
                (Math_ceil_div (setHours0 LocalTZA now
                                - setHours0 LocalTZA (Date_parse startDateStr)) msPerDay)
                7 eq_refl).
  lia.
Qed.

(** X15. The weekly schedule and the summary of today never disagree.
    The schedule shows 'completed or not started' exactly when the
    summary does. When it shows a week, it has seven rows, exactly one of
    them marked as the current day: the row of the day the summary
    reports, which names the workout the summary shows, or rest when the
    summary has none, and whose date is the start date plus the days the
    coordinate counts. *)
Theorem schedule_agrees_with_today now :
  (renderWeeklySchedule LocalTZA Date_parse WORKOUT_PLAN now = ScheduleCompletedOrNotStarted <->
   renderTodayWorkout LocalTZA Date_parse WORKOUT_PLAN now
     = (CompletedOrNotStarted
          (week (getWeekAndDay LocalTZA Date_parse now PROGRAM_START_DATE))
          (day (getWeekAndDay LocalTZA Date_parse now PROGRAM_START_DATE)), [])) /\
  (forall rows,
     renderWeeklySchedule LocalTZA Date_parse WORKOUT_PLAN now = ScheduleWeek rows ->
     length rows = 7%nat /\
     (exists row,
        rows !! Z.to_nat (day (getWeekAndDay LocalTZA Date_parse now PROGRAM_START_DATE) - 1)
          = Some row /\
        currentDay row = true /\
        daysAfterStart row
          = (week (getWeekAndDay LocalTZA Date_parse now PROGRAM_START_DATE) - 1) * 7
            + (day (getWeekAndDay LocalTZA Date_parse now PROGRAM_START_DATE) - 1) /\
        rowText row
          = match fst (renderTodayWorkout LocalTZA Date_parse WORKOUT_PLAN now) with
            | TodaysWorkout _ _ workoutForToday => type workoutForToday
            | _ => "Rest/Active Recovery"
            end) /\
     (forall i row,
        rows !! i = Some row -> currentDay row = true ->
        i = Z.to_nat (day (getWeekAndDay LocalTZA Date_parse now PROGRAM_START_DATE) - 1))).
Proof.
  unfold renderWeeklySchedule, renderTodayWorkout. cbv zeta.
  set (c := getWeekAndDay LocalTZA Date_parse now PROGRAM_START_DATE).
  pose proof (day_in_week now PROGRAM_START_DATE) as Hday. fold c in Hday.
  destruct ((week c >? 26) || (week c =? 0)) eqn:Hguard.
  - split; [done |]. intros rows [=].
  - destruct (WORKOUT_PLAN !! ("Week " +:+ pretty (week c))) as [plan | ] eqn:Hplan.
    + split.
      * split; [discriminate |].
        destruct (plan !! ("Day " +:+ pretty (day c))); discriminate.
      * intros rows [= <-].
        assert (week c <> 0) as Hweek.
        { intros Hzero. rewrite Hzero in Hguard. discriminate. }
        specialize (Hday Hweek).
        assert (day c = 1 \/ day c = 2 \/ day c = 3 \/ day c = 4
                \/ day c = 5 \/ day c = 6 \/ day c = 7) as Hcases by lia.
        clear Hday Hguard Hweek.
        split; [reflexivity |].
        repeat (destruct Hcases as [Hd | Hcases]); try rename Hcases into Hd;
          rewrite Hd;
          (split;
           [ eexists; split; [reflexivity |]; split; [reflexivity |];
             split; [reflexivity |];
             cbn [rowText fst];
             by destruct (plan !! _)
           | intros i row Hi Hcur;
             do 7 (destruct i as [| i]; [injection Hi as <-; by cbn in Hcur |]);
             discriminate ]).
    + split; [| intros rows [=]].
      split; discriminate.
Qed.

End ScheduleFacts.

(** ** More instances *)

Lemma save_settles_witness :
  ({["steps" := VNum (num 10)]} : object) !! "date" = None /\
  db aborting = true /\ faults aborting = [false; true] /\ faults fresh = [] /\
  stored (snd (saveDailyData "2025-01-01" {["steps" := VNum (num 10)]} failing))
    = stored failing /\
  saveDailyData "2025-01-01" {["steps" := VNum (num 10)]} aborting
    = (Fulfilled tt,
       World true ∅ ∅ []
         [Request (ReqPut dailyDataStore
                     ({["steps" := VNum (num 10)]} ∪ {["date" := VStr "2025-01-01"]}))]) /\
  stored (snd (saveDailyData "2025-01-01" {["steps" := VNum (num 10)]} fresh))
    = ({[VStr "2025-01-01" := {["steps" := VNum (num 10)]} ∪ {["date" := VStr "2025-01-01"]}]},
       ∅).
Proof.
  assert (({["steps" := VNum (num 10)]} : object) !! "date" = None) as Hdate
    by reflexivity.
  assert (db aborting = true) as Hdb by reflexivity.
  assert (faults aborting = [false; true]) as Habort by reflexivity.
  assert (faults fresh = []) as Hok by reflexivity.
  split; [exact Hdate |]. split; [exact Hdb |]. split; [exact Habort |].
  split; [exact Hok |]. split; [| split].
  - destruct (save_settles "2025-01-01" failing) as [Hsave _].
    destruct (Hsave _ Hdate) as [Hsettles _]. exact Hsettles.
  - destruct (save_settles "2025-01-01" aborting) as [Hsave _].
    destruct (Hsave {["steps" := VNum (num 10)]} Hdate) as (_ & Haborted & _).
    destruct (Haborted [] Hdb Habort) as [Hfst Hstored].
    reflexivity.
  - destruct (save_settles "2025-01-01" fresh) as [Hsave _].
    destruct (Hsave {["steps" := VNum (num 10)]} Hdate) as (_ & _ & Hcommitted).
    destruct (Hcommitted Hok) as [_ Hstored]. exact Hstored.
Defined.

Lemma save_then_get_witness :
  let w1 := snd (saveDailyData "2025-01-01" {["steps" := VNum (num 10)]} fresh) in
  ({["steps" := VNum (num 10)]} : object) !! "date" = None /\
  saveDailyData "2025-01-01" {["steps" := VNum (num 10)]} fresh = (Fulfilled tt, w1) /\
  getDailyData "2025-01-01" w1
    = (Fulfilled (dailyData w1 !! VStr "2025-01-01"), snd (getDailyData "2025-01-01" w1)) /\
  faults fresh = [] /\
  dailyData w1 !! VStr "2025-01-01"
    = Some ({["steps" := VNum (num 10)]} ∪ {["date" := VStr "2025-01-01"]}).
Proof.
  cbv zeta.
  assert (({["steps" := VNum (num 10)]} : object) !! "date" = None) as Hdate
    by reflexivity.
  assert (saveDailyData "2025-01-01" {["steps" := VNum (num 10)]} fresh
          = (Fulfilled tt,
             snd (saveDailyData "2025-01-01" {["steps" := VNum (num 10)]} fresh)))
    as Hsave by reflexivity.
  assert (getDailyData "2025-01-01"
            (snd (saveDailyData "2025-01-01" {["steps" := VNum (num 10)]} fresh))
          = (Fulfilled
               (dailyData (snd (saveDailyData "2025-01-01"
                                  {["steps" := VNum (num 10)]} fresh))
                  !! VStr "2025-01-01"),
             snd (getDailyData "2025-01-01"
                    (snd (saveDailyData "2025-01-01"
                            {["steps" := VNum (num 10)]} fresh)))))
    as Hget by reflexivity.
  assert (faults fresh = []) as Hok by reflexivity.
  split; [exact Hdate |]. split; [exact Hsave |]. split; [exact Hget |].
  split; [exact Hok |].
  destruct (save_then_get "2025-01-01" _ _ _ _ _ Hdate Hsave Hget) as [_ Hrecord].
  exact (Hrecord Hok).
Defined.

Lemma getAllWeights_lists_the_store_witness :
  let w := snd (saveWeightBtn_click "2025-01-01" num_72_5 fresh) in
  getAllWeights w
    = (Fulfilled [<["weight" := VNum num_72_5]> {["date" := VStr "2025-01-01"]}],
       snd (getAllWeights w)) /\
  size (weights w) = 1%nat.
Proof.
  cbv zeta.
  assert (getAllWeights (snd (saveWeightBtn_click "2025-01-01" num_72_5 fresh))
          = (Fulfilled [<["weight" := VNum num_72_5]> {["date" := VStr "2025-01-01"]}],
             snd (getAllWeights (snd (saveWeightBtn_click "2025-01-01" num_72_5 fresh)))))
    as Hall by reflexivity.
  split; [exact Hall |].
  destruct (getAllWeights_lists_the_store _ _ _ Hall) as [_ Hsize].
  symmetry. exact Hsize.
Defined.

Lemma open_failure_stops_witness :
  db unopened = false /\ faults unopened = [true] /\
  getDailyData "2025-01-01" unopened
    = (Rejected "Database error", World false ∅ ∅ [] [Request ReqOpen]).
Proof.
  assert (db unopened = false) as Hdb by reflexivity.
  assert (faults unopened = [true]) as Hfail by reflexivity.
  split; [exact Hdb |]. split; [exact Hfail |].
  destruct (open_failure_stops "2025-01-01" ∅ NaN unopened [] Hdb Hfail)
    as (_ & Hget & _).
  exact Hget.
Defined.


Lemma saveWeight_last_wins_witness :
  faults fresh = [] /\ gt0 (num 70) = true /\ gt0 num_72_5 = true /\
  stored (snd (saveWeightBtn_click "2025-01-01" num_72_5
            (snd (saveWeightBtn_click "2025-01-01" (num 70) fresh))))
    = stored (snd (saveWeightBtn_click "2025-01-01" num_72_5 fresh)).
Proof.
  assert (faults fresh = []) as Hok by reflexivity.
  assert (gt0 (num 70) = true) as Hx by reflexivity.
  assert (gt0 num_72_5 = true) as Hy by reflexivity.
  split; [exact Hok |]. split; [exact Hx |]. split; [exact Hy |].
  apply (saveWeight_last_wins "2025-01-01" (num 70) num_72_5 fresh Hok Hx Hy).
Defined.

Lemma saves_commute_witness :
  "2025-01-01" <> "2025-01-02" /\
  stored (snd (saveDailyData "2025-01-02" {["water" := VNum (num 2)]}
            (snd (saveDailyData "2025-01-01" {["steps" := VNum (num 10)]} fresh))))
    = stored (snd (saveDailyData "2025-01-01" {["steps" := VNum (num 10)]}
                (snd (saveDailyData "2025-01-02" {["water" := VNum (num 2)]} fresh)))).
Proof.
  assert ("2025-01-01" <> "2025-01-02") as Hne by discriminate.
  split; [exact Hne |].
  apply (saves_commute "2025-01-01" "2025-01-02" _ _ fresh Hne);
    reflexivity.
Defined.

Lemma session_keeps_tidy_witness :
  tidy failing /\
  tidy (session [ClickSaveMacros "2025-01-01" (num 2000) NaN NaN NaN;
                 ClickSaveWeight "2025-01-01" num_72_5;
                 ClickSaveDailyData "2025-01-02" (num 10) NaN NaN NaN NaN NaN]
          failing).
Proof.
  assert (tidy failing) as Htidy by apply tidy_empty.
  split; [exact Htidy |].
  apply (session_keeps_tidy _ failing Htidy).
Defined.

Lemma session_requests_witness :
  db fresh = true /\
  db (session [ClickSaveWeight "2025-01-01" NaN;
               ClickSaveWeight "2025-01-01" num_72_5] fresh) = true /\
  opensOf (trace (session [ClickSaveWeight "2025-01-01" NaN;
                           ClickSaveWeight "2025-01-01" num_72_5] fresh))
    = opensOf (trace fresh).
Proof.
  assert (db fresh = true) as Hdb by reflexivity.
  split; [exact Hdb |].
  destruct (session_requests [ClickSaveWeight "2025-01-01" NaN;
                              ClickSaveWeight "2025-01-01" num_72_5] fresh)
    as (_ & _ & Hopen).
  exact (Hopen Hdb).
Defined.

Lemma dashboard_shows_saved_witness :
  faults fresh = [] /\
  dashboardOf (Some ({["calories" := VNum (num 2000)]} : object))
    = DashboardView (VNum (num 0)) (VNum (num 0)) (VNum (num 2000))
        (VNum (num 0)) (VNum (num 0)) (VNum (num 0))
        (VStr "") (VStr "") (VNum (num 2000)) (VStr "") (VStr "") (VStr "") /\
  displaySteps (dashboardOf (Some (dailyFields (num 10) (num 0) (num 0) (num 0) (num 0) (num 0)
                                     ∪ {["date" := VStr "2025-01-01"]})))
    = VNum (num 10).
Proof.
  assert (faults fresh = []) as Hok by reflexivity.
  split; [exact Hok |]. split; [reflexivity |].
  destruct (dashboard_shows_saved "2025-01-01" fresh Hok) as [Hdaily _].
  rewrite (Hdaily (num 10) NaN NaN NaN NaN NaN
             (Some (dailyFields (num 10) (num 0) (num 0) (num 0) (num 0) (num 0)
                      ∪ {["date" := VStr "2025-01-01"]}))); reflexivity.
Defined.

Lemma coordinate_counts_days_witness :
  setHours0 utc (parse_2025_07_07 PROGRAM_START_DATE)
    <= setHours0 utc (start_2025_07_07 + 8 * msPerDay + 9 * msPerHour) /\
  1 <= day (getWeekAndDay utc parse_2025_07_07
              (start_2025_07_07 + 8 * msPerDay + 9 * msPerHour) PROGRAM_START_DATE) <= 7.
Proof.
  assert (setHours0 utc (parse_2025_07_07 PROGRAM_START_DATE)
          <= setHours0 utc (start_2025_07_07 + 8 * msPerDay + 9 * msPerHour)) as Hle
    by (vm_compute; discriminate).
  split; [exact Hle |].
  destruct (coordinate_counts_days utc parse_2025_07_07
              (start_2025_07_07 + 8 * msPerDay + 9 * msPerHour) PROGRAM_START_DATE)
    as [_ Hfrom].
  destruct (Hfrom Hle) as (_ & Hday & _). exact Hday.
Defined.

Lemma fixed_offset_calendar_witness :
  (forall t isUTC, utc_minus_5 t isUTC = - 5 * msPerHour) /\
  - msPerDay < - 5 * msPerHour < msPerDay /\
  parse_2025_07_07 PROGRAM_START_DATE = 20276 * msPerDay /\
  getWeekAndDay utc_minus_5 parse_2025_07_07
    (start_2025_07_07 + 17 * msPerHour) PROGRAM_START_DATE
  = Coordinate 1 2 None.
Proof.
  assert (forall t isUTC, utc_minus_5 t isUTC = - 5 * msPerHour) as Hfixed
    by reflexivity.
  assert (- msPerDay < - 5 * msPerHour < msPerDay) as Hoffset
    by (split; reflexivity).
  assert (parse_2025_07_07 PROGRAM_START_DATE = 20276 * msPerDay) as Hstart
    by reflexivity.
  split; [exact Hfixed |]. split; [exact Hoffset |]. split; [exact Hstart |].
  rewrite (fixed_offset_calendar utc_minus_5 parse_2025_07_07 _ _ _ _
             Hfixed Hoffset Hstart).
  reflexivity.
Defined.

Lemma schedule_agrees_with_today_witness :
  exists rows,
    renderWeeklySchedule utc parse_2025_07_07 planWithWeek1 start_2025_07_07
      = ScheduleWeek rows /\
    length rows = 7%nat /\
    (rowText <$> rows !! 0%nat) = Some "Full Body" /\
    (currentDay <$> rows !! 0%nat) = Some true.
Proof.
  eexists. split; [reflexivity |].
  destruct (schedule_agrees_with_today utc parse_2025_07_07 planWithWeek1
              start_2025_07_07) as [_ Hrows].
  destruct (Hrows _ eq_refl) as (Hlen & _ & _).
  split; [exact Hlen |]. split; reflexivity.
Defined.

Section CalendarSteps.

Variable LocalTZA : Z -> bool -> Z.
Variable Date_parse : string -> Z.

Lemma Math_ceil_div_succ a b : 0 < b -> Math_ceil_div (a + b) b = Math_ceil_div a b + 1.
Proof.
  intros Hb. unfold Math_ceil_div.
  replace (- (a + b)) with (- a + (-1) * b) by ring.
  rewrite Z.div_add by lia. ring.
Qed.

(** X16. One day of elapsed time later the coordinate is the next one:
    the day after, and after day 7 the first day of the week after. *)
Theorem getWeekAndDay_next_day now later startDateStr
    (Hle : setHours0 LocalTZA (Date_parse startDateStr) <= setHours0 LocalTZA now)
    (Hnext : setHours0 LocalTZA later = setHours0 LocalTZA now + msPerDay) :
  getWeekAndDay LocalTZA Date_parse later startDateStr
    = if day (getWeekAndDay LocalTZA Date_parse now startDateStr) =? 7
      then Coordinate (week (getWeekAndDay LocalTZA Date_parse now startDateStr) + 1) 1 None
      else Coordinate (week (getWeekAndDay LocalTZA Date_parse now startDateStr))
             (day (getWeekAndDay LocalTZA Date_parse now startDateStr) + 1) None.
Proof.
  rewrite (getWeekAndDay_from _ _ now _ Hle).
  rewrite getWeekAndDay_from by (rewrite Hnext; unfold msPerDay; lia).
  rewrite Hnext. cbn.
  replace (setHours0 LocalTZA now + msPerDay - setHours0 LocalTZA (Date_parse startDateStr))
    with (setHours0 LocalTZA now - setHours0 LocalTZA (Date_parse startDateStr) + msPerDay)
    by ring.
  rewrite Math_ceil_div_succ by reflexivity.
  set (diffDays := Math_ceil_div _ _).
  pose proof (Z.div_mod diffDays 7 ltac:(lia)) as Hd.
  pose proof (Z.div_mod (diffDays + 1) 7 ltac:(lia)) as Hd1.
  pose proof (Z.mod_pos_bound diffDays 7 eq_refl) as Hm.
  pose proof (Z.mod_pos_bound (diffDays + 1) 7 eq_refl) as Hm1.
  destruct (Z.eqb_spec (diffDays mod 7 + 1) 7) as [Hlast | Hnot]; f_equal; lia.
Qed.

End CalendarSteps.

Lemma getWeekAndDay_next_day_witness :
  setHours0 utc (parse_2025_07_07 PROGRAM_START_DATE)
    <= setHours0 utc (start_2025_07_07 + 6 * msPerDay) /\
  setHours0 utc (start_2025_07_07 + 7 * msPerDay + 3 * msPerHour)
    = setHours0 utc (start_2025_07_07 + 6 * msPerDay) + msPerDay /\
  getWeekAndDay utc parse_2025_07_07
    (start_2025_07_07 + 6 * msPerDay) PROGRAM_START_DATE = Coordinate 1 7 None /\
  getWeekAndDay utc parse_2025_07_07
    (start_2025_07_07 + 7 * msPerDay + 3 * msPerHour) PROGRAM_START_DATE
  = Coordinate 2 1 None.
Proof.
  assert (setHours0 utc (parse_2025_07_07 PROGRAM_START_DATE)
          <= setHours0 utc (start_2025_07_07 + 6 * msPerDay)) as Hle
    by (vm_compute; discriminate).
  assert (setHours0 utc (start_2025_07_07 + 7 * msPerDay + 3 * msPerHour)
          = setHours0 utc (start_2025_07_07 + 6 * msPerDay) + msPerDay) as Hnext
    by reflexivity.
  split; [exact Hle |]. split; [exact Hnext |]. split; [reflexivity |].
  rewrite (getWeekAndDay_next_day utc parse_2025_07_07 _ _ _ Hle Hnext).
  reflexivity.
Defined.
